(** * CommBot scraper: a shallow embedding of [backend/scraper.py]

    The development follows the layout of the source file:
    - [Text]      the Python string operations the scraper relies on
                  ([str.strip], [str.lower], [in], [str.join], f-strings);
    - [Soup]      the part of BeautifulSoup the scraper calls (a DOM tree
                  with [descendants], [parents], [select], [select_one],
                  [get_text] and [.text]);
    - [Selenium]  exceptions and the driver, as the sequence of answers the
                  browser gives to the calls the scraper makes;
    - [Scraper]   the functions of the source, under their own names.

    Characters are the 8-bit characters of [Ascii.ascii], read as the code
    points 0..255; strings are [String.string]. *)

From Stdlib Require Import Ascii String ZArith Lia.
From stdpp Require Import base list strings gmap.

Open Scope string_scope.
Open Scope list_scope.
Set Warnings "-register-all,-clear-no-such-hyp".

(* ===================================================================== *)
(** ** Python string operations *)
(* ===================================================================== *)

Module Text.

(** [str.isspace] on the code points below 256. *)
Definition is_space (c : ascii) : bool :=
  let n := nat_of_ascii c in
  (Nat.leb 9 n && Nat.leb n 13) || (Nat.leb 28 n && Nat.leb n 32)
  || Nat.eqb n 133 || Nat.eqb n 160.

(** [c in chars] for a character. *)
Fixpoint char_in (c : ascii) (chars : string) : bool :=
  match chars with
  | EmptyString => false
  | String d rest => Ascii.eqb c d || char_in c rest
  end.

Fixpoint lstrip_by (p : ascii -> bool) (s : string) : string :=
  match s with
  | EmptyString => EmptyString
  | String c rest => if p c then lstrip_by p rest else s
  end.

Fixpoint rstrip_by (p : ascii -> bool) (s : string) : string :=
  match s with
  | EmptyString => EmptyString
  | String c rest =>
      match rstrip_by p rest with
      | EmptyString => if p c then EmptyString else String c EmptyString
      | r => String c r
      end
  end.

(** [s.strip()] *)
Definition strip (s : string) : string :=
  rstrip_by is_space (lstrip_by is_space s).

(** [s.strip(chars)]: [chars] is a set of characters, not a substring. *)
Definition strip_chars (chars s : string) : string :=
  rstrip_by (fun c => char_in c chars) (lstrip_by (fun c => char_in c chars) s).

(** [str.lower] on the code points below 256. *)
Definition lower_char (c : ascii) : ascii :=
  let n := nat_of_ascii c in
  if (Nat.leb 65 n && Nat.leb n 90)
     || (Nat.leb 192 n && Nat.leb n 222 && negb (Nat.eqb n 215))
  then ascii_of_nat (n + 32) else c.

Fixpoint lower (s : string) : string :=
  match s with
  | EmptyString => EmptyString
  | String c rest => String (lower_char c) (lower rest)
  end.

Fixpoint starts_with (p s : string) : bool :=
  match p, s with
  | EmptyString, _ => true
  | String a p', String b s' => Ascii.eqb a b && starts_with p' s'
  | String _ _, EmptyString => false
  end.

(** [needle in hay] *)
Fixpoint contains (needle hay : string) : bool :=
  starts_with needle hay ||
  match hay with
  | EmptyString => false
  | String _ rest => contains needle rest
  end.

(** [sep.join(parts)] *)
Fixpoint join (sep : string) (parts : list string) : string :=
  match parts with
  | [] => EmptyString
  | [p] => p
  | p :: rest => p +:+ sep +:+ join sep rest
  end.

(** Truthiness of a string: [if s:] holds for the non-empty ones. *)
Definition truthy (s : string) : bool :=
  match s with EmptyString => false | String _ _ => true end.

Definition is_digit (c : ascii) : bool :=
  let n := nat_of_ascii c in Nat.leb 48 n && Nat.leb n 57.

(** [s.endswith("/")] *)
Fixpoint ends_in_slash (s : string) : bool :=
  match s with
  | EmptyString => false
  | String c EmptyString => Ascii.eqb c "/"
  | String _ rest => ends_in_slash rest
  end.

(** [s[:n]] *)
Fixpoint take (n : nat) (s : string) : string :=
  match n, s with
  | O, _ => EmptyString
  | S m, String c rest => String c (take m rest)
  | S _, EmptyString => EmptyString
  end.

(** [s[n:]] *)
Fixpoint drop (n : nat) (s : string) : string :=
  match n, s with
  | O, _ => s
  | S m, String _ rest => drop m rest
  | S _, EmptyString => EmptyString
  end.

End Text.

(* ===================================================================== *)
(** ** BeautifulSoup *)
(* ===================================================================== *)

Module Soup.

(** A parsed document. [class] is a multi-valued attribute: the parser
    stores it as the list of its tokens ([[]] when the attribute is
    absent); the other attributes are plain strings.  The document itself
    is the tag ["[document]"].  [NavigableString] is a text string (or a
    CData section); [SpecialString] is a string of one of the other
    classes ([Comment], [Script], [Stylesheet], [TemplateString],
    [Doctype], ...), which [.text] and [get_text] leave out. *)
Inductive node : Type :=
| NavigableString (s : string)
| SpecialString (s : string)
| Tag (name : string) (classes : list string)
      (attrs : list (string * string)) (children : list node).

Definition document (children : list node) : node :=
  Tag "[document]" [] [] children.

Definition tag_name (n : node) : option string :=
  match n with
  | NavigableString _ | SpecialString _ => None
  | Tag nm _ _ _ => Some nm
  end.

(** [tag.get('class', [])] *)
Definition get_class (n : node) : list string :=
  match n with
  | NavigableString _ | SpecialString _ => []
  | Tag _ cl _ _ => cl
  end.

Fixpoint assoc (k : string) (l : list (string * string)) : option string :=
  match l with
  | [] => None
  | (k', v) :: rest => if String.eqb k k' then Some v else assoc k rest
  end.

(** [tag.get(key)] for a single-valued attribute. *)
Definition get_attr (key : string) (n : node) : option string :=
  match n with
  | NavigableString _ | SpecialString _ => None
  | Tag _ _ at_ _ => assoc key at_
  end.

(** [tag.descendants]: document order, the tag itself excluded. *)
Fixpoint descendants (n : node) : list node :=
  match n with
  | NavigableString _ | SpecialString _ => []
  | Tag _ _ _ cs =>
      (fix over (l : list node) : list node :=
         match l with
         | [] => []
         | c :: l' => c :: descendants c ++ over l'
         end) cs
  end.

(** The descendants, each with its [.parents] (nearest first); [up] are
    the parents of [n] and [n] becomes the nearest parent of its children. *)
Fixpoint descendants_with_parents (up : list node) (n : node)
  : list (node * list node) :=
  match n with
  | NavigableString _ | SpecialString _ => []
  | Tag _ _ _ cs =>
      (fix over (l : list node) : list (node * list node) :=
         match l with
         | [] => []
         | c :: l' =>
             (c, n :: up) :: descendants_with_parents (n :: up) c ++ over l'
         end) cs
  end.

(** The strings below a tag that count as text, in document order. *)
Definition strings (n : node) : list string :=
  omap (fun d => match d with
                 | NavigableString s => Some s
                 | SpecialString _ | Tag _ _ _ _ => None
                 end)
       (descendants n).

(** [tag.text], that is [tag.get_text()]. *)
Definition text (n : node) : string := Text.join "" (strings n).

(** [tag.get_text(strip=True)]: every string is stripped, the empty ones
    are dropped, the rest is concatenated. *)
Definition get_text_strip (n : node) : string :=
  Text.join "" (List.filter Text.truthy (List.map Text.strip (strings n))).

(** The CSS selectors of the scraper are compound selectors made of an
    optional tag name and one class: [".cmdOver"] is
    [css None "cmdOver"], ["div.cmdEvent"] is [css (Some "div") "cmdEvent"]. *)
Record selector := css { sel_name : option string; sel_class : string }.

Definition matches (sel : selector) (n : node) : bool :=
  match n with
  | NavigableString _ | SpecialString _ => false
  | Tag nm cl _ _ =>
      match sel_name sel with
      | None => true
      | Some want => String.eqb want nm
      end
      && existsb (String.eqb (sel_class sel)) cl
  end.

(** [tag.select(sel)] *)
Definition select (n : node) (sel : selector) : list node :=
  List.filter (matches sel) (descendants n).

(** [tag.select_one(sel)]: the first match or [None]. *)
Definition select_one (n : node) (sel : selector) : option node :=
  head (select n sel).

End Soup.

(* ===================================================================== *)
(** ** Selenium: exceptions and the browser session *)
(* ===================================================================== *)

Module Selenium.

(** The exception classes the scraper names.  All of them but
    [OtherException] derive from [WebDriverException] in selenium;
    [OtherException] stands for any other subclass of [Exception]. *)
Inductive exn : Type :=
| WebDriverException
| TimeoutException
| NoSuchElementException
| ElementClickInterceptedException
| StaleElementReferenceException
| OtherException.

(** [isinstance(e, WebDriverException)] *)
Definition is_WebDriverException (e : exn) : bool :=
  match e with OtherException => false | _ => true end.

(** A call either returns or raises. *)
Inductive outcome (A : Type) : Type :=
| Returns (a : A)
| Raises (e : exn).
Arguments Returns {A} a.
Arguments Raises {A} e.

#[global] Instance outcome_ret : MRet outcome := @Returns.
#[global] Instance outcome_bind : MBind outcome :=
  fun A B (k : A -> outcome B) (m : outcome A) =>
    match m with
    | Returns a => k a
    | Raises e => Raises e
    end.

(** [try: m  except <classes>: h] *)
Definition try_except {A : Type} (m : outcome A) (catches : exn -> bool)
    (h : exn -> outcome A) : outcome A :=
  match m with
  | Returns a => Returns a
  | Raises e => if catches e then h e else Raises e
  end.

(** An element handle returned by [find_elements]: what reading its
    [.text] for the n-th time and clicking it do. *)
Record web_element := {
  we_text : nat -> outcome string;
  we_click : outcome unit
}.

(** The browser session, as the answers it gives to the calls the scraper
    makes.  Selectors are the CSS strings of the source.
    - [get url]: [driver.get(url)];
    - [scroll_height n]: the n-th evaluation of
      ["return document.body.scrollHeight"] (0 is the one before the loop);
    - [scroll_to_bottom n]: the n-th ["window.scrollTo(...)"];
    - [wait_presence css]:
      [WebDriverWait(...).until(EC.presence_of_element_located(css))];
    - [wait_clickable css]: the same with [EC.element_to_be_clickable];
    - [find_elements css n]: the n-th [driver.find_elements(css)];
    - [page_source]: [BeautifulSoup(driver.page_source, parser)]. *)
Record driver := {
  get : string -> outcome unit;
  scroll_height : nat -> outcome Z;
  scroll_to_bottom : nat -> outcome unit;
  wait_presence : string -> outcome unit;
  wait_clickable : string -> outcome unit;
  find_elements : string -> nat -> outcome (list web_element);
  page_source : outcome Soup.node
}.

End Selenium.

Import Selenium.

(* ===================================================================== *)
(** ** The scraper *)
(* ===================================================================== *)

Module Scraper.
Import Soup.

(** *** Constants *)

Definition FIXTURES_URL : string := "https://www.iplt20.com/matches/fixtures".
Definition RESULTS_URL : string := "https://www.iplt20.com/matches/results".
Definition BASE_URL : string := "https://www.iplt20.com".
Definition MAX_SCROLL_ATTEMPTS_WITHOUT_CHANGE : nat := 3.

(** The selectors [scrape_match_commentary] passes down. *)
Definition commentary_event_selector : selector := css (Some "div") "cmdEvent".
Definition over_selector : selector := css None "cmdOver".
Definition run_selector : selector := css None "ovRun".
Definition start_text_selector : selector := css None "commentaryStartText".
Definition text_selector : selector := css None "commentaryText".

(** *** Navigation and scrolling *)

(** Lines 28-35. An exception that is not a [WebDriverException] is not
    caught here. *)
Definition safe_get (d : driver) (url : string) : outcome bool :=
  try_except (get d url ;; mret true)
             is_WebDriverException
             (fun _ => mret false).

(** The [while True] loop of [scroll_page] (lines 41-58).  [done] counts
    the iterations already executed; the result is how the loop ended
    ([Returns tt] after a [break], [Raises e] when [e] is not caught) and
    the number of iterations executed.  [None]: the loop is still running
    when the fuel is spent. *)
Fixpoint scroll_loop (fuel : nat) (d : driver) (done : nat)
    (last_height : Z) (scroll_attempts_no_change : nat)
  : option (outcome unit * nat) :=
  match fuel with
  | O => None
  | S fuel' =>
      match scroll_to_bottom d done ;; scroll_height d (S done) with
      | Raises e =>
          if is_WebDriverException e
          then Some (Returns tt, S done)
          else Some (Raises e, S done)
      | Returns new_height =>
          if Z.eqb new_height last_height then
            let scroll_attempts_no_change := S scroll_attempts_no_change in
            if Nat.leb MAX_SCROLL_ATTEMPTS_WITHOUT_CHANGE scroll_attempts_no_change
            then Some (Returns tt, S done)
            else scroll_loop fuel' d (S done) new_height scroll_attempts_no_change
          else scroll_loop fuel' d (S done) new_height 0
      end
  end.

(** Lines 37-58. The first read of the height is outside the [try]. *)
Definition scroll_page (fuel : nat) (d : driver) : option (outcome unit * nat) :=
  match scroll_height d 0 with
  | Raises e => Some (Raises e, 0)
  | Returns last_height => scroll_loop fuel d 0 last_height 0
  end.

(** *** Match listings *)

(** [re.compile(r'/match/\d+/\d+').search(s)] *)
Fixpoint skip_digits (s : string) : string :=
  match s with
  | String c rest => if Text.is_digit c then skip_digits rest else s
  | EmptyString => s
  end.

Definition match_href_at (s : string) : bool :=
  if Text.starts_with "/match/" s then
    match Text.drop 7 s with
    | String c rest =>
        Text.is_digit c &&
        match skip_digits rest with
        | String "/" (String c' _) => Text.is_digit c'
        | _ => false
        end
    | EmptyString => false
    end
  else false.

Fixpoint match_href_search (s : string) : bool :=
  match_href_at s ||
  match s with
  | EmptyString => false
  | String _ rest => match_href_search rest
  end.

(** [re.compile(r'(live|status--live)', re.IGNORECASE).search(s)] *)
Definition search_ignorecase (pattern s : string) : bool :=
  Text.contains (Text.lower pattern) (Text.lower s).

Definition live_class_search (s : string) : bool :=
  search_ignorecase "live" s || search_ignorecase "status--live" s.

(** How [find_parent(class_=regex)] tests a tag: the regex is searched in
    each class token, then in the tokens joined by a space. *)
Definition class_matches (n : node) : bool :=
  existsb live_class_search (get_class n)
  || live_class_search (Text.join " " (get_class n)).

(** [soup.find_all('a', href=re.compile(r'/match/\d+/\d+'))], each tag
    with its parents. *)
Definition is_match_link (n : node) : bool :=
  match tag_name n, get_attr "href" n with
  | Some nm, Some href => String.eqb nm "a" && match_href_search href
  | _, _ => false
  end.

Definition find_all_match_links (soup : node) : list (node * list node) :=
  List.filter (fun lp => is_match_link (fst lp)) (descendants_with_parents [] soup).

(** [link_tag.find_parent(class_=re.compile(r'(live|status--live)', re.IGNORECASE))] *)
Definition find_parent (parents : list node) : option node :=
  List.find class_matches parents.

(** Lines 95-101. *)
Definition is_live (parents : list node) : bool :=
  match find_parent parents with
  | Some parent_container =>
      existsb (String.eqb "live") (get_class parent_container)
      || Text.contains "live" (Text.lower (text parent_container))
  | None => false
  end.

Section Listing.

(** [urllib.parse.urljoin]; it raises [ValueError] on some references
    (["//[..."] for one), which the pattern of [find_all] does not rule
    out. *)
Variable urljoin : string -> string -> outcome string.

(** The [for] loop of [scrape_live_matches] (lines 84-109): the list
    [live_matches] when the loop is left, and how it is left.  An exception
    of [urljoin] leaves the loop with the list as built so far. *)
Fixpoint live_loop (links : list (node * list node))
    (live_matches : list string) (processed_urls : gset string)
  : list string * outcome unit :=
  match links with
  | [] => (live_matches, Returns tt)
  | (link_tag, parents) :: rest =>
      match get_attr "href" link_tag with
      | None => live_loop rest live_matches processed_urls
      | Some match_url =>
          if negb (Text.truthy match_url)
          then live_loop rest live_matches processed_urls
          else
            match urljoin BASE_URL match_url with
            | Raises e => (live_matches, Raises e)
            | Returns absolute_url =>
                if decide (absolute_url ∈ processed_urls)
                then live_loop rest live_matches processed_urls
                else
                  live_loop rest
                    (if is_live parents
                     then live_matches ++ [absolute_url]
                     else live_matches)
                    ({[absolute_url]} ∪ processed_urls)
            end
      end
  end.

(** Lines 80-117: from the parsed page to the list returned.  An
    exception in the loop is caught at line 113 and line 117 returns
    [live_matches] as it is then. *)
Definition live_matches_of_soup (soup : node) : list string :=
  match live_loop (find_all_match_links soup) [] ∅ with
  | (live_matches, Returns _) => live_matches
  | (live_matches, Raises _) => live_matches
  end.

(** Lines 62-117.  [safe_get] is called outside the [try]; inside it,
    [TimeoutException] and [Exception] both end in [return live_matches],
    which is still empty before the loop. *)
Definition scrape_live_matches (fuel : nat) (d : driver)
  : option (outcome (list string)) :=
  match safe_get d FIXTURES_URL with
  | Raises e => Some (Raises e)
  | Returns false => Some (Returns [])
  | Returns true =>
      match wait_presence d "a[href*='/match/']" with
      | Raises _ => Some (Returns [])
      | Returns _ =>
          match scroll_page fuel d with
          | None => None
          | Some (Raises _, _) => Some (Returns [])
          | Some (Returns _, _) =>
              match page_source d with
              | Raises _ => Some (Returns [])
              | Returns soup => Some (Returns (live_matches_of_soup soup))
              end
          end
      end
  end.

(** The [for] loop of [scrape_past_matches] (lines 144-150): the set
    [past_matches_urls] when the loop is left, and how it is left. *)
Fixpoint past_loop (links : list (node * list node))
    (past_matches_urls : gset string) : gset string * outcome unit :=
  match links with
  | [] => (past_matches_urls, Returns tt)
  | (link_tag, _) :: rest =>
      match get_attr "href" link_tag with
      | None => past_loop rest past_matches_urls
      | Some match_url =>
          if negb (Text.truthy match_url)
          then past_loop rest past_matches_urls
          else
            match urljoin BASE_URL match_url with
            | Raises e => (past_matches_urls, Raises e)
            | Returns absolute_url =>
                past_loop rest ({[absolute_url]} ∪ past_matches_urls)
            end
      end
  end.

(** Lines 135-158: the set the list returned is made of.  An exception in
    the loop is caught at line 154 and line 158 returns the set as it is
    then. *)
Definition past_matches_of_soup (soup : node) : gset string :=
  match past_loop (find_all_match_links soup) ∅ with
  | (past_matches_urls, Returns _) => past_matches_urls
  | (past_matches_urls, Raises _) => past_matches_urls
  end.

(** Lines 119-158. [list(past_matches_urls)] is [elements]. *)
Definition scrape_past_matches (fuel : nat) (d : driver)
  : option (outcome (list string)) :=
  match safe_get d RESULTS_URL with
  | Raises e => Some (Raises e)
  | Returns false => Some (Returns [])
  | Returns true =>
      match wait_presence d "a[href*='/match/']" with
      | Raises _ => Some (Returns (elements (∅ : gset string)))
      | Returns _ =>
          match scroll_page fuel d with
          | None => None
          | Some (Raises _, _) => Some (Returns (elements (∅ : gset string)))
          | Some (Returns _, _) =>
              match page_source d with
              | Raises _ => Some (Returns (elements (∅ : gset string)))
              | Returns soup => Some (Returns (elements (past_matches_of_soup soup)))
              end
          end
      end
  end.

End Listing.

(** *** Ball-by-ball commentary *)

Section Commentary.

(** Reading an element of the page can fail; the per-element [try] of
    [parse_commentary_from_soup] exists for that.  [fault n] is the
    exception a call on the node [n] raises, if any. *)
Variable fault : node -> option exn.

Definition select_one (element : node) (sel : selector) : outcome (option node) :=
  match fault element with
  | Some e => Raises e
  | None => Returns (Soup.select_one element sel)
  end.

Definition get_text (n : node) : outcome string :=
  match fault n with
  | Some e => Raises e
  | None => Returns (get_text_strip n)
  end.

(** [el.get_text(strip=True) if el else ""] *)
Definition text_or_empty (el : option node) : outcome string :=
  match el with
  | Some n => get_text n
  | None => Returns ""
  end.

(** Lines 198-203: the three-way merge of the over and run labels. *)
Definition over_info (cmd_over_text ov_run_text : string) : string :=
  if Text.truthy cmd_over_text && negb (Text.contains "(" cmd_over_text)
  then cmd_over_text +:+ " (" +:+ ov_run_text +:+ ")"
  else if Text.truthy cmd_over_text
  then cmd_over_text
  else ov_run_text.

(** Lines 196-213 once the four texts are read: the entry appended to
    [parsed_entries], or [None] when nothing is appended. *)
Definition entry_of (cmd_over_text ov_run_text commentary_start_text
                     commentary_text : string) : option string :=
  if Text.truthy commentary_text then
    let parts := [over_info cmd_over_text ov_run_text;
                  commentary_start_text; commentary_text] in
    let full_entry_text := Text.join " - " (List.filter Text.truthy parts) in
    let full_entry_text := Text.strip_chars " - " full_entry_text in
    if Nat.ltb 5 (String.length full_entry_text)
    then Some full_entry_text
    else None
  else None.

(** The body of the [try] (lines 183-213) for one element. *)
Definition parse_element (over_sel run_sel start_sel text_sel : selector)
    (element : node) : outcome (option string) :=
  cmd_over_element ← select_one element over_sel;
  ov_run_element ← select_one element run_sel;
  start_text_element ← select_one element start_sel;
  text_element ← select_one element text_sel;
  cmd_over_text ← text_or_empty cmd_over_element;
  ov_run_text ← text_or_empty ov_run_element;
  commentary_start_text ← text_or_empty start_text_element;
  commentary_text ← text_or_empty text_element;
  mret (entry_of cmd_over_text ov_run_text commentary_start_text commentary_text).

(** The [for] loop (lines 181-217); [parsed_entries] is the list built so
    far.  [except Exception: continue] leaves it as it is. *)
Fixpoint parse_loop (over_sel run_sel start_sel text_sel : selector)
    (elements : list node) (parsed_entries : list string) : list string :=
  match elements with
  | [] => parsed_entries
  | element :: rest =>
      match parse_element over_sel run_sel start_sel text_sel element with
      | Returns (Some full_entry_text) =>
          parse_loop over_sel run_sel start_sel text_sel rest
                     (parsed_entries ++ [full_entry_text])
      | Returns None =>
          parse_loop over_sel run_sel start_sel text_sel rest parsed_entries
      | Raises _ =>
          parse_loop over_sel run_sel start_sel text_sel rest parsed_entries
      end
  end.

Definition parse_commentary_from_soup (soup : node)
    (event_sel over_sel run_sel start_sel text_sel : selector) : list string :=
  let all_commentary_elements := select soup event_sel in
  match all_commentary_elements with
  | [] => []
  | _ => rev (parse_loop over_sel run_sel start_sel text_sel
                         all_commentary_elements [])
  end.

End Commentary.

(** *** Commentary of one match *)

Definition innings_tab_selector : string := ".ap-inner-tb-click".
Definition active_commentary_container_selector : string :=
  "div.commentary-event-listing".

(** Lines 251-264: wait for the tabs or the container, then look the tabs
    up; a timeout or a missing element means no tabs. *)
Definition discover_tabs (d : driver) : outcome (list web_element) :=
  try_except
    (wait_presence d (innings_tab_selector +:+ ", "
                      +:+ active_commentary_container_selector) ;;
     find_elements d innings_tab_selector 0)
    (fun e => match e with
              | TimeoutException | NoSuchElementException => true
              | _ => false
              end)
    (fun _ => mret []).

(** Lines 284-301: the click on the tab of inning 0 and the wait that
    follows.  [true]: go on to read the page; [false]: [break]. *)
Definition click_tab (d : driver) (current_tabs : list web_element)
  : outcome bool :=
  try_except
    (wait_clickable d innings_tab_selector ;;
     match current_tabs with
     | tab :: _ =>
         we_click tab ;;
         wait_presence d active_commentary_container_selector ;;
         mret true
     | [] => mret false
     end)
    (fun e => match e with
              | ElementClickInterceptedException
              | StaleElementReferenceException
              | TimeoutException => true
              | _ => false
              end)
    (fun _ => mret true).

(** Lines 273-319, the body of the inner [try] for [inning_index = 0]:
    [Some entries] when [commentary_data] is assigned, [None] when the loop
    is left by a [break] before that. *)
Definition process_inning (fault : node -> option exn) (d : driver)
    (innings_tabs : list web_element) : outcome (option (list string)) :=
  proceed ←
    match innings_tabs with
    | _ :: _ =>
        current_tabs ← find_elements d innings_tab_selector 1;
        match current_tabs with
        | [] => mret false
        | tab_element :: _ =>
            shown ← we_text tab_element 0;
            (if Text.truthy shown
             then we_text tab_element 1 ;; mret tt
             else mret tt) ;;
            click_tab d current_tabs
        end
    | [] =>
        wait_presence d active_commentary_container_selector ;; mret true
    end;
  if (proceed : bool) then
    soup ← page_source d;
    mret (Some (parse_commentary_from_soup fault soup
                  commentary_event_selector over_selector run_selector
                  start_text_selector text_selector))
  else mret None.

(** Lines 224-338.  The loop runs once ([num_innings_to_process = 1]); an
    exception in it is logged and leaves [commentary_data] empty; the outer
    handlers all return the empty list. *)
Definition scrape_match_commentary (fault : node -> option exn) (d : driver)
    (url : string) : outcome (list string) :=
  try_except
    (reached ← safe_get d url;
     if (reached : bool) then
       innings_tabs ← discover_tabs d;
       try_except
         (r ← process_inning fault d innings_tabs;
          mret (match r with
                | Some inning_commentary => inning_commentary
                | None => []
                end))
         (fun _ => true)
         (fun _ => mret [])
     else mret [])
    (fun _ => true)
    (fun _ => mret []).

End Scraper.

Import Soup Scraper.

(* ===================================================================== *)
(** ** The API layer ([backend/main.py]) *)
(* ===================================================================== *)

Module Main.

(** *** Metrics *)

Inductive match_type : Type := live | past.

(** The Prometheus metrics the endpoints below write: a counter and a
    gauge are their value, a histogram of scores is the list of the values
    observed, and a histogram of durations is the number of observations
    made (the values are wall-clock times). *)
Record metrics := {
  MATCHES_FOUND : match_type -> nat;
  SCRAPER_ERRORS : match_type -> nat;
  COMMENTARY_SCRAPE_TIME : nat;
  LLM_LOAD_STATUS : nat;
  TTS_LOAD_STATUS : nat;
  LLM_GENERATE_TIME : nat;
  TTS_SYNTHESIS_TIME : nat;
  FEEDBACK_COUNT : nat;
  FEEDBACK_SCORE : list Z;
  DRIFT_SCORE : list Z
}.

Definition label_eqb (a b : match_type) : bool :=
  match a, b with
  | live, live | past, past => true
  | _, _ => false
  end.

(** [MATCHES_FOUND.labels(match_type=t).set(v)] *)
Definition set_matches_found (t : match_type) (v : nat) (m : metrics) : metrics :=
  {| MATCHES_FOUND := fun t' => if label_eqb t t' then v else MATCHES_FOUND m t';
     SCRAPER_ERRORS := SCRAPER_ERRORS m;
     COMMENTARY_SCRAPE_TIME := COMMENTARY_SCRAPE_TIME m;
     LLM_LOAD_STATUS := LLM_LOAD_STATUS m;
     TTS_LOAD_STATUS := TTS_LOAD_STATUS m;
     LLM_GENERATE_TIME := LLM_GENERATE_TIME m;
     TTS_SYNTHESIS_TIME := TTS_SYNTHESIS_TIME m;
     FEEDBACK_COUNT := FEEDBACK_COUNT m;
     FEEDBACK_SCORE := FEEDBACK_SCORE m;
     DRIFT_SCORE := DRIFT_SCORE m |}.

(** [SCRAPER_ERRORS.labels(match_type=t).inc()] *)
Definition inc_scraper_errors (t : match_type) (m : metrics) : metrics :=
  {| MATCHES_FOUND := MATCHES_FOUND m;
     SCRAPER_ERRORS := fun t' => if label_eqb t t'
                                 then S (SCRAPER_ERRORS m t')
                                 else SCRAPER_ERRORS m t';
     COMMENTARY_SCRAPE_TIME := COMMENTARY_SCRAPE_TIME m;
     LLM_LOAD_STATUS := LLM_LOAD_STATUS m;
     TTS_LOAD_STATUS := TTS_LOAD_STATUS m;
     LLM_GENERATE_TIME := LLM_GENERATE_TIME m;
     TTS_SYNTHESIS_TIME := TTS_SYNTHESIS_TIME m;
     FEEDBACK_COUNT := FEEDBACK_COUNT m;
     FEEDBACK_SCORE := FEEDBACK_SCORE m;
     DRIFT_SCORE := DRIFT_SCORE m |}.

(** [LLM_LOAD_STATUS.set(v)] and [TTS_LOAD_STATUS.set(v)] *)
Definition set_llm_load_status (v : nat) (m : metrics) : metrics :=
  {| MATCHES_FOUND := MATCHES_FOUND m;
     SCRAPER_ERRORS := SCRAPER_ERRORS m;
     COMMENTARY_SCRAPE_TIME := COMMENTARY_SCRAPE_TIME m;
     LLM_LOAD_STATUS := v;
     TTS_LOAD_STATUS := TTS_LOAD_STATUS m;
     LLM_GENERATE_TIME := LLM_GENERATE_TIME m;
     TTS_SYNTHESIS_TIME := TTS_SYNTHESIS_TIME m;
     FEEDBACK_COUNT := FEEDBACK_COUNT m;
     FEEDBACK_SCORE := FEEDBACK_SCORE m;
     DRIFT_SCORE := DRIFT_SCORE m |}.

Definition set_tts_load_status (v : nat) (m : metrics) : metrics :=
  {| MATCHES_FOUND := MATCHES_FOUND m;
     SCRAPER_ERRORS := SCRAPER_ERRORS m;
     COMMENTARY_SCRAPE_TIME := COMMENTARY_SCRAPE_TIME m;
     LLM_LOAD_STATUS := LLM_LOAD_STATUS m;
     TTS_LOAD_STATUS := v;
     LLM_GENERATE_TIME := LLM_GENERATE_TIME m;
     TTS_SYNTHESIS_TIME := TTS_SYNTHESIS_TIME m;
     FEEDBACK_COUNT := FEEDBACK_COUNT m;
     FEEDBACK_SCORE := FEEDBACK_SCORE m;
     DRIFT_SCORE := DRIFT_SCORE m |}.

(** [COMMENTARY_SCRAPE_TIME.observe(...)], [LLM_GENERATE_TIME.observe(...)]
    and [TTS_SYNTHESIS_TIME.observe(...)] *)
Definition observe_scrape_time (m : metrics) : metrics :=
  {| MATCHES_FOUND := MATCHES_FOUND m;
     SCRAPER_ERRORS := SCRAPER_ERRORS m;
     COMMENTARY_SCRAPE_TIME := S (COMMENTARY_SCRAPE_TIME m);
     LLM_LOAD_STATUS := LLM_LOAD_STATUS m;
     TTS_LOAD_STATUS := TTS_LOAD_STATUS m;
     LLM_GENERATE_TIME := LLM_GENERATE_TIME m;
     TTS_SYNTHESIS_TIME := TTS_SYNTHESIS_TIME m;
     FEEDBACK_COUNT := FEEDBACK_COUNT m;
     FEEDBACK_SCORE := FEEDBACK_SCORE m;
     DRIFT_SCORE := DRIFT_SCORE m |}.

Definition observe_llm_time (m : metrics) : metrics :=
  {| MATCHES_FOUND := MATCHES_FOUND m;
     SCRAPER_ERRORS := SCRAPER_ERRORS m;
     COMMENTARY_SCRAPE_TIME := COMMENTARY_SCRAPE_TIME m;
     LLM_LOAD_STATUS := LLM_LOAD_STATUS m;
     TTS_LOAD_STATUS := TTS_LOAD_STATUS m;
     LLM_GENERATE_TIME := S (LLM_GENERATE_TIME m);
     TTS_SYNTHESIS_TIME := TTS_SYNTHESIS_TIME m;
     FEEDBACK_COUNT := FEEDBACK_COUNT m;
     FEEDBACK_SCORE := FEEDBACK_SCORE m;
     DRIFT_SCORE := DRIFT_SCORE m |}.

Definition observe_tts_time (m : metrics) : metrics :=
  {| MATCHES_FOUND := MATCHES_FOUND m;
     SCRAPER_ERRORS := SCRAPER_ERRORS m;
     COMMENTARY_SCRAPE_TIME := COMMENTARY_SCRAPE_TIME m;
     LLM_LOAD_STATUS := LLM_LOAD_STATUS m;
     TTS_LOAD_STATUS := TTS_LOAD_STATUS m;
     LLM_GENERATE_TIME := LLM_GENERATE_TIME m;
     TTS_SYNTHESIS_TIME := S (TTS_SYNTHESIS_TIME m);
     FEEDBACK_COUNT := FEEDBACK_COUNT m;
     FEEDBACK_SCORE := FEEDBACK_SCORE m;
     DRIFT_SCORE := DRIFT_SCORE m |}.

(** *** Responses *)

(** An endpoint returns a body or raises an [HTTPException]. *)
Inductive response (A : Type) : Type :=
| OK (body : A)
| HTTPException (status_code : nat) (detail : string).
Arguments OK {A} body.
Arguments HTTPException {A} status_code detail.

(** *** Listing endpoints *)

Section Endpoints.

(** [str(e)] for an exception and [urllib.parse.urljoin]. *)
Variable str : exn -> string.
Variable urljoin : string -> string -> outcome string.

(** Lines 300-318; the body is [{"matches": matches}].  [driver] is the
    global set at start-up, [None] when the browser could not be started. *)
Definition get_live_matches (fuel : nat) (driver : option driver) (m : metrics)
  : option (response (list string) * metrics) :=
  match driver with
  | None =>
      Some (HTTPException 503 "WebDriver not available",
            inc_scraper_errors live m)
  | Some d =>
      match scrape_live_matches urljoin fuel d with
      | None => None
      | Some (Returns matches) =>
          Some (OK matches, set_matches_found live (length matches) m)
      | Some (Raises e) =>
          Some (HTTPException 500 ("Failed to scrape live matches: " +:+ str e),
                set_matches_found live 0 (inc_scraper_errors live m))
      end
  end.

(** Lines 320-338. *)
Definition get_past_matches (fuel : nat) (driver : option driver) (m : metrics)
  : option (response (list string) * metrics) :=
  match driver with
  | None =>
      Some (HTTPException 503 "WebDriver not available",
            inc_scraper_errors past m)
  | Some d =>
      match scrape_past_matches urljoin fuel d with
      | None => None
      | Some (Returns matches) =>
          Some (OK matches, set_matches_found past (length matches) m)
      | Some (Raises e) =>
          Some (HTTPException 500 ("Failed to scrape past matches: " +:+ str e),
                set_matches_found past 0 (inc_scraper_errors past m))
      end
  end.

(** *** Commentary generation *)

(** The answer of [llm.create_chat_completion]: a dictionary that may lack
    any of the keys read.  [None] stands for a missing key, a [None] value
    or an empty dictionary, which the test of line 395 does not tell
    apart. *)
Record chat_message := { content : option string }.
Record chat_choice := { message : option chat_message }.
Definition chat_response : Type := option (list chat_choice).

(** The language model: system message, user message, answer. *)
Definition llm_model : Type := string -> string -> outcome chat_response.

(** [tts.tts_to_file(text, file_path)]; when it returns, the file at
    [file_path] exists. *)
Definition tts_model : Type := string -> string -> outcome unit.

(** [os.path.join(a, b)] on POSIX. *)
Definition path_join (a b : string) : string :=
  if Text.starts_with "/" b then b
  else if negb (Text.truthy a) || Text.ends_in_slash a then a +:+ b
  else a +:+ "/" +:+ b.

Definition system_message : string :=
  "You are an expert cricket commentator with an exciting, descriptive style like in the IPL.".

Definition user_message (latest_raw_commentary : string) : string :=
  "Make this commentary more exciting and descriptive: '"
  +:+ latest_raw_commentary +:+ "'".

Definition refusal_patterns : list string :=
  ["I cannot fulfill"; "I am unable"; "As an AI"; "I'm sorry"].

Definition error_indicators : list string :=
  ["(LLM processing failed"; "(No commentary found"].

(** Lines 396-402: the clean-up of the text the model answered. *)
Definition clean_content (content latest_raw_commentary : string) : string :=
  let processed_commentary := Text.strip content in
  let processed_commentary :=
    if Text.starts_with "assistant" processed_commentary
    then Text.strip (Text.drop (String.length "assistant") processed_commentary)
    else processed_commentary in
  let processed_commentary :=
    if Text.starts_with ":" processed_commentary
    then Text.strip (Text.drop 1 processed_commentary)
    else processed_commentary in
  if existsb (fun pattern =>
                Text.contains (Text.lower pattern) (Text.lower processed_commentary))
             refusal_patterns
  then "(LLM processing failed: Refusal) - Original: " +:+ latest_raw_commentary
  else processed_commentary.

(** Lines 383-413: the text after the LLM step, whatever the model does. *)
Definition llm_processing (llm : llm_model) (latest_raw_commentary : string)
  : string :=
  match llm system_message (user_message latest_raw_commentary) with
  | Raises _ =>
      "(LLM processing failed: Exception) - Original: " +:+ latest_raw_commentary
  | Returns response =>
      match response with
      | Some (first_choice :: _) =>
          match message first_choice with
          | Some msg =>
              match content msg with
              | Some text =>
                  if Text.truthy text
                  then clean_content text latest_raw_commentary
                  else "(LLM processing failed: Bad Structure) - Original: "
                       +:+ latest_raw_commentary
              | None =>
                  "(LLM processing failed: Bad Structure) - Original: "
                  +:+ latest_raw_commentary
              end
          | None =>
              "(LLM processing failed: Bad Structure) - Original: "
              +:+ latest_raw_commentary
          end
      | _ =>
          "(LLM processing failed: Bad Structure) - Original: "
          +:+ latest_raw_commentary
      end
  end.

(** The call of the model returns: the [try] of the LLM step reaches its
    last statement, [LLM_GENERATE_TIME.observe(...)] (line 408). *)
Definition llm_answers (llm : llm_model) (latest_raw_commentary : string) : bool :=
  match llm system_message (user_message latest_raw_commentary) with
  | Returns _ => true
  | Raises _ => false
  end.

(** Line 417. *)
Definition valid_processed_commentary (processed_commentary : string) : bool :=
  Text.truthy processed_commentary
  && negb (existsb (fun err => Text.contains err processed_commentary)
                   error_indicators).

(** The two bodies [scrape_and_generate] returns. *)
Inductive generation : Type :=
| NoCommentary (commentary : string)
| Generated (raw_commentary processed_commentary : string)
            (audio_url : option string).

(** [a or b] on strings. *)
Definition or_else (a b : string) : string := if Text.truthy a then a else b.

(** Lines 345-446.  [uuid] is the value of [uuid.uuid4()] for this
    request, [files] the regular files that exist; the result is the
    response, the metrics and the files afterwards.  The scrape time is
    observed (line 368) before the test for an empty scrape. *)
Definition scrape_and_generate (fault : node -> option exn) (uuid : string)
    (driver : option driver) (llm : option llm_model) (tts : option tts_model)
    (url : string) (m : metrics) (files : gset string)
  : response generation * metrics * gset string :=
  match driver with
  | None => (HTTPException 503 "WebDriver not available", m, files)
  | Some d =>
      match llm with
      | None =>
          (HTTPException 503 "LLM model not available",
           set_llm_load_status 0 m, files)
      | Some model =>
          match scrape_match_commentary fault d url with
          | Raises scrape_err =>
              (HTTPException 500
                 ("Failed to scrape commentary: " +:+ str scrape_err), m, files)
          | Returns scraped_commentaries =>
              let m := observe_scrape_time m in
              match last scraped_commentaries with
              | None =>
                  (OK (NoCommentary "(No commentary found on page)"), m, files)
              | Some latest_raw_commentary =>
                  let processed_commentary :=
                    llm_processing model latest_raw_commentary in
                  let m :=
                    if llm_answers model latest_raw_commentary
                    then observe_llm_time m
                    else m in
                  let '(audio_url, m, files) :=
                    match tts with
                    | Some voice =>
                        if valid_processed_commentary processed_commentary then
                          let filename := "commentary_" +:+ uuid +:+ ".wav" in
                          let output_path := path_join "/app/static" filename in
                          let tts_text := Text.take 500 processed_commentary in
                          match voice tts_text output_path with
                          | Returns _ =>
                              (Some ("/audio/" +:+ filename),
                               observe_tts_time m,
                               {[output_path]} ∪ files)
                          | Raises _ => (None, m, files)
                          end
                        else (None, m, files)
                    | None => (None, set_tts_load_status 0 m, files)
                    end in
                  (OK (Generated
                         (or_else latest_raw_commentary
                                  "(Raw commentary unavailable)")
                         (or_else processed_commentary
                                  "(Processed commentary unavailable)")
                         audio_url),
                   m, files)
              end
          end
      end
  end.

End Endpoints.

(** *** Audio files *)

(** Lines 449-460; the body is the path handed to [FileResponse]. *)
Definition get_audio (files : gset string) (filename : string) : response string :=
  if Text.contains ".." filename || Text.contains "/" filename
  then HTTPException 400 "Invalid filename format"
  else
    let file_path := path_join "/app/static" filename in
    if decide (file_path ∈ files)
    then OK file_path
    else HTTPException 404 ("Audio file '" +:+ filename +:+ "' not found").

(** *** Feedback *)

Record FeedbackRequest := {
  commentary_text : string;
  score : Z;
  comment : option string
}.

(** Lines 468-479; the body is [{"message": ...}]. *)
Definition submit_feedback (feedback : FeedbackRequest) (m : metrics)
  : string * metrics :=
  let m :=
    {| MATCHES_FOUND := MATCHES_FOUND m;
       SCRAPER_ERRORS := SCRAPER_ERRORS m;
       COMMENTARY_SCRAPE_TIME := COMMENTARY_SCRAPE_TIME m;
     LLM_LOAD_STATUS := LLM_LOAD_STATUS m;
       TTS_LOAD_STATUS := TTS_LOAD_STATUS m;
       LLM_GENERATE_TIME := LLM_GENERATE_TIME m;
       TTS_SYNTHESIS_TIME := TTS_SYNTHESIS_TIME m;
       FEEDBACK_COUNT := S (FEEDBACK_COUNT m);
       FEEDBACK_SCORE := FEEDBACK_SCORE m ++ [score feedback];
       DRIFT_SCORE := DRIFT_SCORE m |} in
  let m :=
    if Z.ltb (score feedback) 3 then
      {| MATCHES_FOUND := MATCHES_FOUND m;
         SCRAPER_ERRORS := SCRAPER_ERRORS m;
         COMMENTARY_SCRAPE_TIME := COMMENTARY_SCRAPE_TIME m;
     LLM_LOAD_STATUS := LLM_LOAD_STATUS m;
         TTS_LOAD_STATUS := TTS_LOAD_STATUS m;
         LLM_GENERATE_TIME := LLM_GENERATE_TIME m;
         TTS_SYNTHESIS_TIME := TTS_SYNTHESIS_TIME m;
         FEEDBACK_COUNT := FEEDBACK_COUNT m;
         FEEDBACK_SCORE := FEEDBACK_SCORE m;
         DRIFT_SCORE := DRIFT_SCORE m ++ [score feedback] |}
    else m in
  ("Feedback successfully received", m).

End Main.

Import Main.

(* ===================================================================== *)
(** ** Pages and sessions used as examples *)
(* ===================================================================== *)

Module Fixtures.

Definition div (cls : list string) (children : list node) : node :=
  Tag "div" cls [] children.

Definition span (cls : string) (s : string) : node :=
  Tag "span" [cls] [] [NavigableString s].

Definition anchor (href label : string) : node :=
  Tag "a" [] [("href", href)] [NavigableString label].

(** One commentary event with its four sub-fields; an empty string leaves
    the sub-field out of the markup. *)
Definition field (cls s : string) : list node :=
  if Text.truthy s then [span cls s] else [].

Definition ball (over run start txt : string) : node :=
  div ["cmdEvent"]
      (field "cmdOver" over ++ field "ovRun" run
       ++ field "commentaryStartText" start ++ field "commentaryText" txt).

Definition panel (events : list node) : node :=
  document [div ["commentary-event-listing"] events].

(** No read of the page fails. *)
Definition no_fault : node -> option exn := fun _ => None.

(** [urljoin] on a base without path and an absolute-path reference. *)
Definition abs_join (base ref : string) : outcome string :=
  Returns (base +:+ ref).

(** The same, with the [ValueError] ("Invalid IPv6 URL") that [urljoin]
    raises on a reference starting with ["//["]. *)
Definition strict_join (base ref : string) : outcome string :=
  if Text.starts_with "//[" ref then Raises OtherException
  else Returns (base +:+ ref).

(** Three links below [live] containers; [urljoin] raises on the second. *)
Definition broken_href_page : node :=
  document [Tag "div" ["live"] [] [Tag "a" [] [("href", "/match/2024/1")]
                                      [NavigableString "Match 1"]];
            Tag "div" ["live"] [] [Tag "a" [] [("href", "//[/match/2024/9")]
                                      [NavigableString "Match 9"]];
            Tag "div" ["live"] [] [Tag "a" [] [("href", "/match/2024/3")]
                                      [NavigableString "Match 3"]]].

(** A session in which every call succeeds, the page has the constant
    height 1000 and its source is [soup]. *)
Definition static_session (soup : node) : driver :=
  {| get := fun _ => Returns tt;
     scroll_height := fun _ => Returns 1000%Z;
     scroll_to_bottom := fun _ => Returns tt;
     wait_presence := fun _ => Returns tt;
     wait_clickable := fun _ => Returns tt;
     find_elements := fun _ _ => Returns [];
     page_source := Returns soup |}.

(** Three events, newest first. *)
Definition three_balls : node :=
  panel [ball "6" "Six" "Bumrah to Kohli" "SIX! Over long-on";
         ball "5.6 (0)" "" "Bumrah to Kohli" "dot ball";
         ball "" "5.5" "Bumrah to Kohli" "single"].

(** An over label without parenthesis and no run label. *)
Definition over_without_run : node :=
  panel [ball "5.6" "" "Bumrah to Kohli" "dot ball"].

(** Three events; the second has no description. *)
Definition middle_without_description : node :=
  panel [ball "1.3" "1" "Starc to Gill" "single taken";
         ball "1.2" "W" "Starc to Gill" "";
         ball "1.1" "4" "Starc to Gill" "four runs"].

(** Reads of the nodes that carry the class [detached] raise. *)
Definition detached_fault (n : node) : option exn :=
  if existsb (String.eqb "detached") (get_class n)
  then Some StaleElementReferenceException
  else None.

Definition detached_ball : node :=
  Tag "div" ["cmdEvent"; "detached"] []
      [span "cmdOver" "1.2"; span "commentaryText" "caught behind"].

(** Three events; reading the second raises. *)
Definition middle_detached : node :=
  panel [ball "1.3" "1" "Starc to Gill" "single taken";
         detached_ball;
         ball "1.1" "4" "Starc to Gill" "four runs"].

(** A description of exactly six characters and nothing else. *)
Definition six_chars : node := panel [ball "" "" "" "single"].

(** The listing of scenario B: one anchor below a [status--live]
    container, one below a plain container; [label] is the text of the
    first anchor. *)
Definition scenario_B (label : string) : node :=
  document [div ["status--live"] [anchor "/match/2024/1" label];
            div ["fixture"] [anchor "/match/2024/2" "Match 2"]].

(** The same link twice: first below a plain container, then below a
    [live] one. *)
Definition duplicate_later_live : node :=
  document [div ["fixture"] [anchor "/match/2024/7" "Match 7"];
            div ["live"] [anchor "/match/2024/7" "Match 7"];
            div ["live"] [anchor "/match/2024/8" "Match 8"];
            div ["live"] [anchor "/match/2024/8" "Match 8"]].

(** Its first link, with its parents. *)
Definition first_link_of_duplicate : node * list node :=
  (anchor "/match/2024/7" "Match 7",
   [div ["fixture"] [anchor "/match/2024/7" "Match 7"]; duplicate_later_live]).

(** Heights 1, 1, 1, 2, 2, 2, ...: one change, after two stalled reads. *)
Definition late_growth : driver :=
  {| get := fun _ => Returns tt;
     scroll_height := fun n => Returns (if Nat.ltb n 3 then 1%Z else 2%Z);
     scroll_to_bottom := fun _ => Returns tt;
     wait_presence := fun _ => Returns tt;
     wait_clickable := fun _ => Returns tt;
     find_elements := fun _ _ => Returns [];
     page_source := Returns (document []) |}.

(** A page that grows at every scroll: the n-th read is n. *)
Definition ever_growing : driver :=
  {| get := fun _ => Returns tt;
     scroll_height := fun n => Returns (Z.of_nat n);
     scroll_to_bottom := fun _ => Returns tt;
     wait_presence := fun _ => Returns tt;
     wait_clickable := fun _ => Returns tt;
     find_elements := fun _ _ => Returns [];
     page_source := Returns (document []) |}.

(** Heights 0, 1, 2, 2, 2, ...: two changes in a row, then none. *)
Definition grows_twice : driver :=
  {| get := fun _ => Returns tt;
     scroll_height := fun n => Returns (Z.of_nat (Nat.min n 2));
     scroll_to_bottom := fun _ => Returns tt;
     wait_presence := fun _ => Returns tt;
     wait_clickable := fun _ => Returns tt;
     find_elements := fun _ _ => Returns [];
     page_source := Returns (document []) |}.

(** The first scroll script fails; the page is [soup]. *)
Definition scroll_breaks (soup : node) : driver :=
  {| get := fun _ => Returns tt;
     scroll_height := fun _ => Returns 1000%Z;
     scroll_to_bottom := fun _ => Raises WebDriverException;
     wait_presence := fun _ => Returns tt;
     wait_clickable := fun _ => Returns tt;
     find_elements := fun _ _ => Returns [];
     page_source := Returns soup |}.

(** The height cannot be read at all; the page is [soup]. *)
Definition height_unreadable (soup : node) : driver :=
  {| get := fun _ => Returns tt;
     scroll_height := fun _ => Raises WebDriverException;
     scroll_to_bottom := fun _ => Returns tt;
     wait_presence := fun _ => Returns tt;
     wait_clickable := fun _ => Returns tt;
     find_elements := fun _ _ => Returns [];
     page_source := Returns soup |}.

(** A tab handle with the text "1st Innings" whose click is intercepted. *)
Definition blocked_tab : web_element :=
  {| we_text := fun _ => Returns "1st Innings";
     we_click := Raises ElementClickInterceptedException |}.

(** A match page with one tab that cannot be clicked; the panel shown is
    [soup]. *)
Definition blocked_tab_session (soup : node) : driver :=
  {| get := fun _ => Returns tt;
     scroll_height := fun _ => Returns 1000%Z;
     scroll_to_bottom := fun _ => Returns tt;
     wait_presence := fun _ => Returns tt;
     wait_clickable := fun _ => Returns tt;
     find_elements := fun _ _ => Returns [blocked_tab];
     page_source := Returns soup |}.

(** Neither tabs nor container show up in time at first; the container is
    there at the second wait. *)
Definition slow_panel_session (soup : node) : driver :=
  {| get := fun _ => Returns tt;
     scroll_height := fun _ => Returns 1000%Z;
     scroll_to_bottom := fun _ => Returns tt;
     wait_presence := fun css =>
       if String.eqb css "div.commentary-event-listing"
       then Returns tt else Raises TimeoutException;
     wait_clickable := fun _ => Returns tt;
     find_elements := fun _ _ => Returns [];
     page_source := Returns soup |}.

(** The tabs found at first are gone when they are looked up again. *)
Definition vanishing_tabs_session (soup : node) : driver :=
  {| get := fun _ => Returns tt;
     scroll_height := fun _ => Returns 1000%Z;
     scroll_to_bottom := fun _ => Returns tt;
     wait_presence := fun _ => Returns tt;
     wait_clickable := fun _ => Returns tt;
     find_elements := fun _ n =>
       match n with O => Returns [blocked_tab] | S _ => Returns [] end;
     page_source := Returns soup |}.

(** A model that answers with one choice holding [text]. *)
Definition answering (text : string) : llm_model :=
  fun _ _ => Returns (Some [{| message := Some {| content := Some text |} |}]).

(** A voice that always writes its file. *)
Definition working_voice : tts_model := fun _ _ => Returns tt.

(** Metrics at start-up. *)
Definition fresh_metrics : metrics :=
  {| MATCHES_FOUND := fun _ => 0;
     SCRAPER_ERRORS := fun _ => 0;
     COMMENTARY_SCRAPE_TIME := 0;
     LLM_LOAD_STATUS := 1;
     TTS_LOAD_STATUS := 1;
     LLM_GENERATE_TIME := 0;
     TTS_SYNTHESIS_TIME := 0;
     FEEDBACK_COUNT := 0;
     FEEDBACK_SCORE := [];
     DRIFT_SCORE := [] |}.

(** [str(e)] as the class name. *)
Definition class_name (e : exn) : string :=
  match e with
  | WebDriverException => "WebDriverException"
  | TimeoutException => "TimeoutException"
  | NoSuchElementException => "NoSuchElementException"
  | ElementClickInterceptedException => "ElementClickInterceptedException"
  | StaleElementReferenceException => "StaleElementReferenceException"
  | OtherException => "Exception"
  end.

(** A session whose navigation fails. *)
Definition unreachable (e : exn) : driver :=
  {| get := fun _ => Raises e;
     scroll_height := fun _ => Returns 1000%Z;
     scroll_to_bottom := fun _ => Returns tt;
     wait_presence := fun _ => Returns tt;
     wait_clickable := fun _ => Returns tt;
     find_elements := fun _ _ => Returns [];
     page_source := Returns three_balls |}.

End Fixtures.
Import Fixtures.

(* ===================================================================== *)
(** ** Notions used in the statements *)
(* ===================================================================== *)

Module Notions.

(** What one event element adds to [parsed_entries]: its entry, or nothing
    when the element is filtered out or its parse raises. *)
Definition contribution (fault : node -> option exn)
    (over_sel run_sel start_sel text_sel : selector) (element : node)
  : option string :=
  match parse_element fault over_sel run_sel start_sel text_sel element with
  | Returns (Some entry) => Some entry
  | Returns None => None
  | Raises _ => None
  end.

(** The entries of the kept elements, in the order of the elements. *)
Definition contributions (fault : node -> option exn)
    (over_sel run_sel start_sel text_sel : selector) (elements : list node)
  : list string :=
  omap (contribution fault over_sel run_sel start_sel text_sel) elements.

(** The description sub-field of an element is absent or has no text. *)
Definition description_missing (text_sel : selector) (element : node) : Prop :=
  match Soup.select_one element text_sel with
  | None => True
  | Some n => get_text_strip n = ""
  end.

(** What the listing loops compute for a link: [None] when they skip it,
    otherwise the outcome of [urljoin] on its [href]. *)
Definition link_url (urljoin : string -> string -> outcome string)
    (link : node * list node) : option (outcome string) :=
  match get_attr "href" (fst link) with
  | Some match_url =>
      if Text.truthy match_url then Some (urljoin BASE_URL match_url) else None
  | None => None
  end.

(** The URL of a link, when [urljoin] returns one. *)
Definition returned_url (urljoin : string -> string -> outcome string)
    (link : node * list node) : option string :=
  match link_url urljoin link with
  | Some (Returns u) => Some u
  | _ => None
  end.

(** The loop goes through all of [links]: [urljoin] raises on none. *)
Definition loop_passes (urljoin : string -> string -> outcome string)
    (links : list (node * list node)) : Prop :=
  forall other e, other ∈ links -> link_url urljoin other <> Some (Raises e).

(** [link] is the first of [links] whose absolute URL is [u], and the loop
    gets to it: [urljoin] raises on none of the links before it. *)
Definition first_occurrence (urljoin : string -> string -> outcome string)
    (links : list (node * list node)) (u : string) (link : node * list node)
  : Prop :=
  exists before after,
    links = before ++ link :: after
    /\ link_url urljoin link = Some (Returns u)
    /\ (forall other, other ∈ before -> link_url urljoin other <> Some (Returns u))
    /\ loop_passes urljoin before.

(** [container] is the nearest of [parents] (nearest first) that
    [find_parent] accepts. *)
Definition nearest_marked (parents : list node) (container : node) : Prop :=
  exists nearer farther,
    parents = nearer ++ container :: farther
    /\ class_matches container = true
    /\ forall p, p ∈ nearer -> class_matches p = false.

(** The session gets to the point where the page source is parsed: the
    navigation to [url] succeeds, the links show up, the scroll loop ends
    within [fuel] without an uncaught exception, and the source is [soup]. *)
Definition reaches_parse (fuel : nat) (d : driver) (url : string)
    (soup : node) : Prop :=
  get d url = Returns tt
  /\ wait_presence d "a[href*='/match/']" = Returns tt
  /\ (exists n, scroll_page fuel d = Some (Returns tt, n))
  /\ page_source d = Returns soup.

(** The first and the last character of a string. *)
Definition first_char (s : string) : option ascii :=
  match s with
  | EmptyString => None
  | String c _ => Some c
  end.

Fixpoint last_char (s : string) : option ascii :=
  match s with
  | EmptyString => None
  | String c EmptyString => Some c
  | String _ rest => last_char rest
  end.

(** A call around the click on a tab either returns or raises one of the
    three exceptions the handler of lines 299-301 names. *)
Definition click_tolerated (o : outcome unit) : Prop :=
  match o with
  | Returns _ => True
  | Raises e =>
      e = ElementClickInterceptedException
      \/ e = StaleElementReferenceException
      \/ e = TimeoutException
  end.

(** The selector of the first wait of [scrape_match_commentary]. *)
Definition tabs_or_container_selector : string :=
  innings_tab_selector +:+ ", " +:+ active_commentary_container_selector.

(** No script of the scroll loop raises during its first [n] iterations. *)
Definition scripts_succeed (d : driver) (n : nat) : Prop :=
  (forall i, i < n -> scroll_to_bottom d i = Returns tt)
  /\ (forall i, i <= n -> exists h, scroll_height d i = Returns h).

(** The n-th read of the height differs from the one before it. *)
Definition changed (h : nat -> outcome Z) (n : nat) : bool :=
  match h (Nat.pred n), h n with
  | Returns before, Returns now => negb (Z.eqb now before)
  | _, _ => false
  end.

(** The number of changes among the reads 1..n. *)
Fixpoint changes (h : nat -> outcome Z) (n : nat) : nat :=
  match n with
  | O => O
  | S m => changes h m + (if changed h (S m) then 1 else 0)
  end.

(** The metrics after a series of feedback requests, handled in order. *)
Definition submit_all (requests : list FeedbackRequest) (m : metrics) : metrics :=
  foldl (fun m feedback => snd (submit_feedback feedback m)) m requests.

(** The name of the file [scrape_and_generate] writes for a request. *)
Definition audio_filename (uuid : string) : string :=
  "commentary_" +:+ uuid +:+ ".wav".

End Notions.
Import Notions.

(* ===================================================================== *)
(** ** Commentary extraction *)
(* ===================================================================== *)

Section CommentaryFacts.

Variable fault : node -> option exn.
Variables over_sel run_sel start_sel text_sel : selector.

Local Notation "'loop'" := (parse_loop fault over_sel run_sel start_sel text_sel).
Local Notation "'kept'" := (contributions fault over_sel run_sel start_sel text_sel).
Local Notation "'kept1'" := (contribution fault over_sel run_sel start_sel text_sel).

(** The loop appends the contributions of the elements, in their order. *)
Lemma parse_loop_contributions (elements : list node) (acc : list string) :
  loop elements acc = acc ++ kept elements.
Proof.
  revert acc. induction elements as [|e es IH]; intros acc; simpl.
  - by rewrite app_nil_r.
  - unfold contributions, contribution. simpl.
    destruct (parse_element _ _ _ _ _ e) as [[entry|]|exc]; rewrite IH; simpl.
    + by rewrite <- app_assoc.
    + done.
    + done.
Qed.

Lemma parse_commentary_from_soup_contributions (soup : node) (event_sel : selector) :
  parse_commentary_from_soup fault soup event_sel over_sel run_sel start_sel text_sel
  = rev (kept (select soup event_sel)).
Proof.
  unfold parse_commentary_from_soup.
  destruct (select soup event_sel) as [|e es] eqn:E; [done|].
  by rewrite parse_loop_contributions.
Qed.

Lemma contributions_app (l1 l2 : list node) :
  kept (l1 ++ l2) = kept l1 ++ kept l2.
Proof. unfold contributions. apply omap_app. Qed.

Lemma contributions_skip (l1 l2 : list node) (e : node) :
  kept1 e = None -> kept (l1 ++ e :: l2) = kept (l1 ++ l2).
Proof.
  intros H. rewrite !contributions_app. f_equal.
  unfold contributions. simpl. unfold contribution in H |- *. by rewrite H.
Qed.

(** An entry that is kept passed the length test. *)
Lemma entry_of_length (o r st t entry : string) :
  entry_of o r st t = Some entry -> 5 < String.length entry.
Proof.
  unfold entry_of. destruct (Text.truthy t); [|done].
  destruct (Nat.ltb 5 _) eqn:E; [|done].
  intros [= <-]. by apply Nat.ltb_lt in E.
Qed.

(** Without a description nothing is kept, whatever the other texts are. *)
Lemma entry_of_no_description (o r st : string) : entry_of o r st "" = None.
Proof. reflexivity. Qed.

(** When the parse of an element returns, the four texts were read and
    the result is [entry_of] on them. *)
Lemma parse_element_returns (e : node) (r : option string) :
  parse_element fault over_sel run_sel start_sel text_sel e = Returns r ->
  fault e = None /\
  exists o rn st t,
    text_or_empty fault (Soup.select_one e over_sel) = Returns o /\
    text_or_empty fault (Soup.select_one e run_sel) = Returns rn /\
    text_or_empty fault (Soup.select_one e start_sel) = Returns st /\
    text_or_empty fault (Soup.select_one e text_sel) = Returns t /\
    r = entry_of o rn st t.
Proof.
  unfold parse_element, select_one.
  destruct (fault e) as [exc|]; [done|].
  unfold mbind, outcome_bind, mret, outcome_ret.
  destruct (text_or_empty fault (Soup.select_one e over_sel)) as [o|]; [|done].
  destruct (text_or_empty fault (Soup.select_one e run_sel)) as [rn|]; [|done].
  destruct (text_or_empty fault (Soup.select_one e start_sel)) as [st|]; [|done].
  destruct (text_or_empty fault (Soup.select_one e text_sel)) as [t|]; [|done].
  intros [= <-]. split; [done|]. by exists o, rn, st, t.
Qed.

Lemma contribution_entry_of (e : node) (entry : string) :
  kept1 e = Some entry ->
  exists o r st t, entry_of o r st t = Some entry.
Proof.
  unfold contribution.
  destruct (parse_element _ _ _ _ _ e) as [[x|]|exc] eqn:E; try done.
  intros [= ->]. apply parse_element_returns in E as (_ & o & r & st & t & _ & _ & _ & _ & E).
  by exists o, r, st, t.
Qed.

Lemma elem_of_contributions (elements : list node) (entry : string) :
  entry ∈ kept elements <-> exists e, e ∈ elements /\ kept1 e = Some entry.
Proof. unfold contributions. apply list_elem_of_omap. Qed.

End CommentaryFacts.

Lemma rev_reverse {A : Type} (l : list A) : rev l = reverse l.
Proof. unfold reverse. apply rev_alt. Qed.

(** C1. The sequence returned by [parse_commentary_from_soup] is the
    reverse of the entries of the kept event elements taken in the order
    in which [select] meets them in the document: position [i] of the
    result is position [n - 1 - i] of that order, and the last entry of
    the result is the entry of the first kept element of the markup. *)
Theorem parse_commentary_reverses_dom_order
    (fault : node -> option exn) (soup : node)
    (event_sel over_sel run_sel start_sel text_sel : selector) :
  parse_commentary_from_soup fault soup event_sel over_sel run_sel start_sel text_sel
  = rev (contributions fault over_sel run_sel start_sel text_sel
           (select soup event_sel))
  /\ last (parse_commentary_from_soup fault soup event_sel over_sel run_sel
             start_sel text_sel)
     = head (contributions fault over_sel run_sel start_sel text_sel
               (select soup event_sel))
  /\ forall i : nat,
       i < length (contributions fault over_sel run_sel start_sel text_sel
                     (select soup event_sel)) ->
       parse_commentary_from_soup fault soup event_sel over_sel run_sel
         start_sel text_sel !! i
       = contributions fault over_sel run_sel start_sel text_sel
           (select soup event_sel)
         !! (length (contributions fault over_sel run_sel start_sel text_sel
                       (select soup event_sel)) - S i).
Proof.
  rewrite parse_commentary_from_soup_contributions, rev_reverse.
  split; [done|]. split.
  - apply last_reverse.
  - intros i Hi. by apply reverse_lookup.
Qed.

(** The three guards of the field merge exclude each other and cover all
    cases; [over_info] is the value of the branch whose guard holds. *)
Lemma over_info_branches (cmd_over_text ov_run_text : string) :
  (Text.truthy cmd_over_text = true
   /\ Text.contains "(" cmd_over_text = false
   /\ over_info cmd_over_text ov_run_text
      = cmd_over_text +:+ " (" +:+ ov_run_text +:+ ")")
  \/ (Text.truthy cmd_over_text = true
      /\ Text.contains "(" cmd_over_text = true
      /\ over_info cmd_over_text ov_run_text = cmd_over_text)
  \/ (Text.truthy cmd_over_text = false
      /\ over_info cmd_over_text ov_run_text = ov_run_text).
Proof.
  unfold over_info.
  destruct (Text.truthy cmd_over_text), (Text.contains "(" cmd_over_text);
    simpl; auto.
Qed.

(** C2, at the input on which the code departs from it: an over label
    without parenthesis and no run label.  The first branch of the merge
    applies and the entry returned contains the empty pair. *)
Theorem empty_parentheses_in_output :
  parse_commentary_from_soup no_fault over_without_run
    commentary_event_selector over_selector run_selector
    start_text_selector text_selector
  = ["5.6 () - Bumrah to Kohli - dot ball"]
  /\ over_info "5.6" "" = "5.6 ()"
  /\ Text.contains "()" "5.6 () - Bumrah to Kohli - dot ball" = true.
Proof. repeat split; vm_compute; reflexivity. Qed.

(** C3, as the code has it: every entry of the result is at least 6
    characters long, so a joined text of 5 characters or fewer is never
    included. *)
Theorem parse_commentary_entries_at_least_6
    (fault : node -> option exn) (soup : node)
    (event_sel over_sel run_sel start_sel text_sel : selector) (entry : string) :
  entry ∈ parse_commentary_from_soup fault soup event_sel over_sel run_sel
            start_sel text_sel ->
  6 <= String.length entry.
Proof.
  rewrite parse_commentary_from_soup_contributions, rev_reverse, elem_of_reverse.
  intros (e & _ & He)%elem_of_contributions.
  apply contribution_entry_of in He as (o & r & st & t & He).
  apply entry_of_length in He. lia.
Qed.

Lemma parse_commentary_entries_at_least_6_witness :
  "1.3 (1) - Starc to Gill - single taken"
    ∈ parse_commentary_from_soup no_fault middle_without_description
        commentary_event_selector over_selector run_selector
        start_text_selector text_selector
  /\ 6 <= String.length "1.3 (1) - Starc to Gill - single taken".
Proof.
  assert (H : "1.3 (1) - Starc to Gill - single taken"
                ∈ parse_commentary_from_soup no_fault middle_without_description
                    commentary_event_selector over_selector run_selector
                    start_text_selector text_selector)
    by (vm_compute; repeat constructor).
  split; [exact H|].
  exact (parse_commentary_entries_at_least_6 no_fault middle_without_description
           commentary_event_selector over_selector run_selector
           start_text_selector text_selector _ H).
Defined.

(** C3 as stated fails at length 6: a joined text of exactly six
    characters is included. *)
Lemma six_characters_kept :
  "single" ∈ parse_commentary_from_soup no_fault six_chars
               commentary_event_selector over_selector run_selector
               start_text_selector text_selector
  /\ String.length "single" <= 6.
Proof. split; [vm_compute; apply list_elem_of_here | vm_compute; lia]. Qed.

(** C8. An event element whose description sub-field is absent or has an
    empty text adds nothing to the result, whatever its other sub-fields
    are: the result is the one the other elements give. *)
Theorem missing_description_contributes_nothing
    (fault : node -> option exn) (soup : node)
    (event_sel over_sel run_sel start_sel text_sel : selector)
    (before : list node) (element : node) (after : list node) :
  select soup event_sel = before ++ element :: after ->
  description_missing text_sel element ->
  contribution fault over_sel run_sel start_sel text_sel element = None
  /\ parse_commentary_from_soup fault soup event_sel over_sel run_sel
       start_sel text_sel
     = rev (contributions fault over_sel run_sel start_sel text_sel
              (before ++ after)).
Proof.
  intros Hsel Hmiss.
  assert (Hnone : contribution fault over_sel run_sel start_sel text_sel element
                  = None).
  { unfold contribution.
    destruct (parse_element _ _ _ _ _ element) as [[entry|]|exc] eqn:E; try done.
    apply parse_element_returns in E
      as (_ & o & r & st & t & _ & _ & _ & Ht & E).
    unfold description_missing in Hmiss. unfold text_or_empty, get_text in Ht.
    destruct (Soup.select_one element text_sel) as [n|].
    - destruct (fault n); [done|]. rewrite Hmiss in Ht.
      injection Ht as <-. by rewrite entry_of_no_description in E.
    - injection Ht as <-. by rewrite entry_of_no_description in E. }
  split; [done|].
  rewrite parse_commentary_from_soup_contributions, Hsel.
  by rewrite contributions_skip.
Qed.

Lemma missing_description_contributes_nothing_witness :
  contribution no_fault over_selector run_selector start_text_selector
    text_selector (ball "1.2" "W" "Starc to Gill" "") = None
  /\ parse_commentary_from_soup no_fault middle_without_description
       commentary_event_selector over_selector run_selector
       start_text_selector text_selector
     = rev (contributions no_fault over_selector run_selector
              start_text_selector text_selector
              ([ball "1.3" "1" "Starc to Gill" "single taken"]
               ++ [ball "1.1" "4" "Starc to Gill" "four runs"])).
Proof.
  apply (missing_description_contributes_nothing no_fault
           middle_without_description commentary_event_selector).
  - vm_compute. reflexivity.
  - vm_compute. exact I.
Defined.

(** C9. When the parse of one event element raises, that element alone is
    skipped: the result is the one the other elements give, and every
    entry another element yields is in it. *)
Theorem failing_element_is_skipped
    (fault : node -> option exn) (soup : node)
    (event_sel over_sel run_sel start_sel text_sel : selector)
    (before : list node) (bad : node) (after : list node) (exc : exn) :
  select soup event_sel = before ++ bad :: after ->
  parse_element fault over_sel run_sel start_sel text_sel bad = Raises exc ->
  parse_commentary_from_soup fault soup event_sel over_sel run_sel
    start_sel text_sel
  = rev (contributions fault over_sel run_sel start_sel text_sel
           (before ++ after))
  /\ forall (element : node) (entry : string),
       element ∈ before ++ after ->
       parse_element fault over_sel run_sel start_sel text_sel element
       = Returns (Some entry) ->
       entry ∈ parse_commentary_from_soup fault soup event_sel over_sel
                 run_sel start_sel text_sel.
Proof.
  intros Hsel Hbad.
  assert (Hout : parse_commentary_from_soup fault soup event_sel over_sel
                   run_sel start_sel text_sel
                 = rev (contributions fault over_sel run_sel start_sel text_sel
                          (before ++ after))).
  { rewrite parse_commentary_from_soup_contributions, Hsel.
    rewrite contributions_skip; [done|]. unfold contribution. by rewrite Hbad. }
  split; [done|].
  intros element entry Hin Hret.
  rewrite Hout, rev_reverse, elem_of_reverse.
  apply elem_of_contributions. exists element. split; [done|].
  unfold contribution. by rewrite Hret.
Qed.

Lemma failing_element_is_skipped_witness :
  parse_commentary_from_soup detached_fault middle_detached
    commentary_event_selector over_selector run_selector
    start_text_selector text_selector
  = rev (contributions detached_fault over_selector run_selector
           start_text_selector text_selector
           ([ball "1.3" "1" "Starc to Gill" "single taken"]
            ++ [ball "1.1" "4" "Starc to Gill" "four runs"]))
  /\ forall (element : node) (entry : string),
       element ∈ [ball "1.3" "1" "Starc to Gill" "single taken"]
                 ++ [ball "1.1" "4" "Starc to Gill" "four runs"] ->
       parse_element detached_fault over_selector run_selector
         start_text_selector text_selector element
       = Returns (Some entry) ->
       entry ∈ parse_commentary_from_soup detached_fault middle_detached
                 commentary_event_selector over_selector run_selector
                 start_text_selector text_selector.
Proof.
  apply (failing_element_is_skipped detached_fault middle_detached
           commentary_event_selector over_selector run_selector
           start_text_selector text_selector _ detached_ball _
           StaleElementReferenceException).
  - vm_compute. reflexivity.
  - vm_compute. reflexivity.
Defined.

(* ===================================================================== *)
(** ** Navigation failure *)
(* ===================================================================== *)

(** C7. When [driver.get] raises, whatever the exception,
    [scrape_match_commentary] returns the empty list: nothing is raised to
    the caller. *)
Theorem navigation_failure_gives_empty
    (fault : node -> option exn) (d : driver) (url : string) (exc : exn) :
  get d url = Raises exc ->
  scrape_match_commentary fault d url = Returns [].
Proof.
  intros H. unfold scrape_match_commentary, safe_get, try_except.
  unfold mbind, outcome_bind, mret, outcome_ret. rewrite H.
  by destruct exc.
Qed.

Lemma navigation_failure_gives_empty_witness :
  get (unreachable WebDriverException) "https://www.iplt20.com/match/2024/1"
  = Raises WebDriverException
  /\ scrape_match_commentary no_fault (unreachable WebDriverException)
       "https://www.iplt20.com/match/2024/1" = Returns [].
Proof.
  split; [reflexivity|].
  apply (navigation_failure_gives_empty no_fault
           (unreachable WebDriverException) _ WebDriverException).
  reflexivity.
Defined.

(** No call of [scrape_match_commentary] raises. *)
Lemma scrape_match_commentary_returns
    (fault : node -> option exn) (d : driver) (url : string) :
  exists entries, scrape_match_commentary fault d url = Returns entries.
Proof.
  unfold scrape_match_commentary, try_except.
  match goal with |- context [match ?m with Returns _ => _ | Raises _ => _ end] =>
    destruct m as [entries|exc] end; eauto.
Qed.

(* ===================================================================== *)
(** ** The scroll loop *)
(* ===================================================================== *)

Section ScrollFacts.

Variable d : driver.

(** One turn of the loop. *)
Lemma scroll_loop_unfold (fuel done stall : nat) (last_height : Z) :
  scroll_loop (S fuel) d done last_height stall
  = match scroll_to_bottom d done ;; scroll_height d (S done) with
    | Raises e =>
        if is_WebDriverException e
        then Some (Returns tt, S done)
        else Some (Raises e, S done)
    | Returns new_height =>
        if Z.eqb new_height last_height then
          if Nat.leb MAX_SCROLL_ATTEMPTS_WITHOUT_CHANGE (S stall)
          then Some (Returns tt, S done)
          else scroll_loop fuel d (S done) new_height (S stall)
        else scroll_loop fuel d (S done) new_height 0
    end.
Proof. reflexivity. Qed.

(** With [stall] unchanged reads behind it and at most [c] changes ahead,
    the loop stops within [3 * c + (3 - stall)] further iterations. *)
Lemma scroll_loop_stops (budget : nat) :
  forall (done stall c : nat) (last_height : Z),
    scroll_height d done = Returns last_height ->
    stall < 3 ->
    (forall n, changes (scroll_height d) (done + n)
               <= changes (scroll_height d) done + c) ->
    3 * c + (3 - stall) <= budget ->
    exists (r : outcome unit) (n : nat),
      n <= done + budget /\
      forall fuel, budget <= fuel ->
        scroll_loop fuel d done last_height stall = Some (r, n).
Proof.
  induction budget as [|budget IH]; intros done stall c last_height Hlast Hstall Hc Hb.
  { lia. }
  destruct (scroll_to_bottom d done) as [[]|e1] eqn:E1.
  2:{ exists (if is_WebDriverException e1 then Returns tt else Raises e1), (S done).
      split; [lia|]. intros [|fuel] Hf; [lia|].
      rewrite scroll_loop_unfold, E1. unfold mbind, outcome_bind.
      by destruct (is_WebDriverException e1). }
  destruct (scroll_height d (S done)) as [new_height|e2] eqn:E2.
  2:{ exists (if is_WebDriverException e2 then Returns tt else Raises e2), (S done).
      split; [lia|]. intros [|fuel] Hf; [lia|].
      rewrite scroll_loop_unfold, E1. unfold mbind, outcome_bind. rewrite E2.
      by destruct (is_WebDriverException e2). }
  assert (Hturn : forall fuel,
    scroll_loop (S fuel) d done last_height stall
    = if Z.eqb new_height last_height then
        if Nat.leb MAX_SCROLL_ATTEMPTS_WITHOUT_CHANGE (S stall)
        then Some (Returns tt, S done)
        else scroll_loop fuel d (S done) new_height (S stall)
      else scroll_loop fuel d (S done) new_height 0).
  { intros fuel. rewrite scroll_loop_unfold, E1. unfold mbind, outcome_bind.
    by rewrite E2. }
  destruct (Z.eqb new_height last_height) eqn:Eh.
  - (* unchanged *)
    destruct (Nat.leb MAX_SCROLL_ATTEMPTS_WITHOUT_CHANGE (S stall)) eqn:Em.
    + exists (Returns tt), (S done). split; [lia|].
      intros [|fuel] Hf; [lia|]. by rewrite Hturn.
    + apply Nat.leb_gt in Em. unfold MAX_SCROLL_ATTEMPTS_WITHOUT_CHANGE in Em.
      destruct (IH (S done) (S stall) c new_height) as (r & n & Hn & Hrun);
        [done | lia | | lia |].
      { intros n. replace (S done + n) with (done + S n) by lia.
        etrans; [apply Hc|]. cbn [changes].
        unfold changed. cbn [Nat.pred]. rewrite Hlast, E2, Eh. simpl. lia. }
      exists r, n. split; [lia|].
      intros [|fuel] Hf; [lia|]. rewrite Hturn. apply Hrun. lia.
  - (* changed: one change is used up, the stall count restarts *)
    assert (Hch : changes (scroll_height d) (S done)
                  = changes (scroll_height d) done + 1).
    { cbn [changes]. unfold changed. cbn [Nat.pred]. by rewrite Hlast, E2, Eh. }
    assert (1 <= c).
    { specialize (Hc 1). replace (done + 1) with (S done) in Hc by lia. lia. }
    destruct (IH (S done) 0 (c - 1) new_height) as (r & n & Hn & Hrun);
      [done | lia | | lia |].
    { intros n. replace (S done + n) with (done + S n) by lia.
      etrans; [apply Hc|]. lia. }
    exists r, n. split; [lia|].
    intros [|fuel] Hf; [lia|]. rewrite Hturn. apply Hrun. lia.
Qed.

End ScrollFacts.

(** C5, with the bound the loop has: [scroll_page] terminates, and when
    the height changes at most [k] times it runs the loop body at most
    [3 * k + 3] times (two unchanged reads can precede each change, three
    end the loop); [3 * k + 3] units of fuel are enough, more do not
    change the result. *)
Theorem scroll_page_terminates (d : driver) (k : nat) :
  (forall n, changes (scroll_height d) n <= k) ->
  exists (r : outcome unit) (iterations : nat),
    iterations <= 3 * k + 3 /\
    forall fuel, 3 * k + 3 <= fuel ->
      scroll_page fuel d = Some (r, iterations).
Proof.
  intros Hk. unfold scroll_page.
  destruct (scroll_height d 0) as [h0|e] eqn:E0.
  - destruct (scroll_loop_stops d (3 * k + 3) 0 0 k h0) as (r & n & Hn & Hrun);
      [done | lia | | lia |].
    { intros n. simpl. specialize (Hk n). lia. }
    exists r, n. split; [lia|done].
  - exists (Raises e), 0. split; [lia|done].
Qed.

Lemma constant_height_no_change (soup : node) (n : nat) :
  changes (scroll_height (static_session soup)) n = 0.
Proof. induction n as [|n IH]; [done|]. cbn [changes]. by rewrite IH. Qed.

Lemma scroll_page_terminates_witness :
  exists (r : outcome unit) (iterations : nat),
    iterations <= 3 * 0 + 3 /\
    forall fuel, 3 * 0 + 3 <= fuel ->
      scroll_page fuel (static_session three_balls) = Some (r, iterations).
Proof.
  apply (scroll_page_terminates (static_session three_balls) 0).
  intros n. rewrite constant_height_no_change. lia.
Defined.

Lemma late_growth_one_change (n : nat) :
  changes (scroll_height late_growth) n <= 1.
Proof.
  assert (H : forall m, changes (scroll_height late_growth) (3 + m) = 1).
  { induction m as [|m IH]; [done|].
    replace (3 + S m) with (S (3 + m)) by lia.
    cbn [changes]. rewrite IH. unfold changed. cbn [Nat.pred].
    simpl scroll_height.
    replace (Nat.ltb (S (3 + m)) 3) with false
      by (symmetry; apply Nat.ltb_ge; lia).
    destruct m as [|m]; [done|].
    replace (Nat.ltb (3 + S m) 3) with false
      by (symmetry; apply Nat.ltb_ge; lia).
    done. }
  destruct n as [|[|[|n]]]; [vm_compute; lia..|].
  change (S (S (S n))) with (3 + n). rewrite (H n). lia.
Qed.

(** C5 as stated fails: the height changes once, after two unchanged
    reads, and the loop body runs six times, more than [1 + 3]. *)
Lemma scroll_six_iterations_one_change :
  (forall n, changes (scroll_height late_growth) n <= 1)
  /\ scroll_page 10 late_growth = Some (Returns tt, 6)
  /\ ~ (6 <= 1 + 3).
Proof.
  split; [exact late_growth_one_change|].
  split; [reflexivity | lia].
Qed.

(* ===================================================================== *)
(** ** Match listings *)
(* ===================================================================== *)

Section ListingFacts.

Variable urljoin : string -> string -> outcome string.

(** One turn of the loop of [scrape_live_matches], on the URL of the link. *)
Lemma live_loop_step (link : node * list node) (rest : list (node * list node))
    (acc : list string) (seen : gset string) :
  live_loop urljoin (link :: rest) acc seen
  = match link_url urljoin link with
    | None => live_loop urljoin rest acc seen
    | Some (Raises e) => (acc, Raises e)
    | Some (Returns u) =>
        if decide (u ∈ seen) then live_loop urljoin rest acc seen
        else live_loop urljoin rest
               (if is_live (snd link) then acc ++ [u] else acc)
               ({[u]} ∪ seen)
    end.
Proof.
  destruct link as [link_tag parents]. unfold link_url. simpl.
  destruct (get_attr "href" link_tag) as [href|]; [|done].
  by destruct (Text.truthy href).
Qed.

(** The list returned is the list the loop is left with. *)
Lemma live_matches_of_soup_loop (soup : node) :
  live_matches_of_soup urljoin soup
  = fst (live_loop urljoin (find_all_match_links soup) [] ∅).
Proof.
  unfold live_matches_of_soup.
  by destruct (live_loop urljoin (find_all_match_links soup) [] ∅) as [l [[]|e]].
Qed.

(** The URLs collected are among the processed ones, and never twice. *)
Lemma live_loop_NoDup (links : list (node * list node)) :
  forall (acc : list string) (seen : gset string),
    NoDup acc -> (forall u, u ∈ acc -> u ∈ seen) ->
    NoDup (fst (live_loop urljoin links acc seen)).
Proof.
  induction links as [|link rest IH]; intros acc seen Hnd Hsub; [done|].
  rewrite live_loop_step.
  destruct (link_url urljoin link) as [[u|e]|]; [|done|by apply IH].
  destruct (decide (u ∈ seen)) as [Hin|Hnin]; [by apply IH|].
  apply IH.
  - destruct (is_live (snd link)); [|done].
    apply NoDup_app. split; [done|]. split; [|apply NoDup_singleton].
    intros x Hx ->%list_elem_of_singleton. by apply Hnin, Hsub.
  - intros x Hx. apply elem_of_union.
    destruct (is_live (snd link)); [|right; by apply Hsub].
    apply elem_of_app in Hx as [Hx|Hx]; [right; by apply Hsub|].
    left. apply list_elem_of_singleton in Hx. by apply elem_of_singleton.
Qed.

Lemma live_loop_keeps (links : list (node * list node)) :
  forall (acc : list string) (seen : gset string) (u : string),
    u ∈ acc -> u ∈ fst (live_loop urljoin links acc seen).
Proof.
  induction links as [|link rest IH]; intros acc seen u Hu; [done|].
  rewrite live_loop_step.
  destruct (link_url urljoin link) as [[v|e]|]; [|done|by apply IH].
  destruct (decide (v ∈ seen)); [by apply IH|].
  apply IH. destruct (is_live (snd link)); set_solver.
Qed.

(** First occurrences, one link further. *)
Lemma first_occurrence_cons (link : node * list node)
    (rest : list (node * list node)) (u : string) (l : node * list node) :
  link_url urljoin link <> Some (Returns u) ->
  (forall e, link_url urljoin link <> Some (Raises e)) ->
  first_occurrence urljoin rest u l ->
  first_occurrence urljoin (link :: rest) u l.
Proof.
  intros Hne Hok (b & a & -> & Hu & Hb & Hpass). exists (link :: b), a.
  split; [done|]. split; [done|]. split.
  - intros o [->|Ho]%elem_of_cons; auto.
  - intros o e [->|Ho]%elem_of_cons; [apply Hok|by apply Hpass].
Qed.

Lemma first_occurrence_uncons (link : node * list node)
    (rest : list (node * list node)) (u : string) (l : node * list node) :
  link_url urljoin link <> Some (Returns u) ->
  first_occurrence urljoin (link :: rest) u l ->
  first_occurrence urljoin rest u l
  /\ forall e, link_url urljoin link <> Some (Raises e).
Proof.
  intros Hne (b & a & Heq & Hu & Hb & Hpass). destruct b as [|x b].
  - simpl in Heq. injection Heq as -> ->. done.
  - simpl in Heq. injection Heq as -> ->. split.
    + exists b, a. split; [done|]. split; [done|]. split.
      * intros o Ho. apply Hb. by right.
      * intros o e Ho. apply Hpass. by right.
    + intros e. apply Hpass. by left.
Qed.

(** What the loop adds: the URLs not processed before whose first
    occurrence in [links] is reached and classified live. *)
Lemma live_loop_elem (links : list (node * list node)) :
  forall (acc : list string) (seen : gset string) (u : string),
    u ∈ fst (live_loop urljoin links acc seen)
    <-> (u ∈ acc)
        \/ ((u ∉ seen) /\ exists link, first_occurrence urljoin links u link
                                     /\ is_live (snd link) = true).
Proof.
  induction links as [|link rest IH]; intros acc seen u.
  { simpl. split; [auto|]. intros [H|(_ & l & (b & a & H & _) & _)]; [done|].
    by destruct b. }
  rewrite live_loop_step.
  destruct (link_url urljoin link) as [[v|e]|] eqn:Ev.
  - destruct (decide (v ∈ seen)) as [Hv|Hv].
    { rewrite IH. split.
      - intros [H|(Hs & l & Hl & Hlive)]; [by left|]. right. split; [done|].
        exists l. split; [|done].
        apply first_occurrence_cons; [|by rewrite Ev|done].
        rewrite Ev. intros [= ->]. done.
      - intros [H|(Hs & l & Hl & Hlive)]; [by left|]. right. split; [done|].
        exists l. split; [|done].
        apply (first_occurrence_uncons link); [|done].
        rewrite Ev. intros [= ->]. done. }
    rewrite IH. split.
    + intros [H|(Hs & l & Hl & Hlive)].
      * destruct (is_live (snd link)) eqn:El; [|by left].
        apply elem_of_app in H as [H|H]; [by left|].
        apply list_elem_of_singleton in H as ->.
        right. split; [done|]. exists link. split; [|done].
        exists [], rest. split; [done|]. split; [done|]. split.
        -- intros o Ho. by apply elem_of_nil in Ho.
        -- intros o e' Ho. by apply elem_of_nil in Ho.
      * right. split; [set_solver|]. exists l. split; [|done].
        apply first_occurrence_cons; [|by rewrite Ev|done].
        rewrite Ev. intros [= ->]. set_solver.
    + intros [H|(Hs & l & Hl & Hlive)].
      * left. destruct (is_live (snd link)); set_solver.
      * destruct (decide (v = u)) as [->|Hne].
        -- left. destruct Hl as (b & a & Heq & Hu & Hb & Hpass).
           destruct b as [|x b]; simpl in Heq; injection Heq as -> ->.
           ++ rewrite Hlive. set_solver.
           ++ exfalso. apply (Hb x); [by left|done].
        -- right. split; [set_solver|]. exists l. split; [|done].
           apply (first_occurrence_uncons link); [|done].
           rewrite Ev. by intros [= ->].
  - simpl. split; [by left|]. intros [H|(_ & l & Hl & _)]; [done|].
    exfalso. destruct Hl as (b & a & Heq & Hu & Hb & Hpass).
    destruct b as [|x b]; simpl in Heq; injection Heq as -> ->.
    + congruence.
    + apply (Hpass x e); [by left|done].
  - rewrite IH. split.
    + intros [H|(Hs & l & Hl & Hlive)]; [by left|]. right. split; [done|].
      exists l. split; [|done].
      apply first_occurrence_cons; [by rewrite Ev|by rewrite Ev|done].
    + intros [H|(Hs & l & Hl & Hlive)]; [by left|]. right. split; [done|].
      exists l. split; [|done].
      apply (first_occurrence_uncons link); [by rewrite Ev|done].
Qed.

(** A URL has one first occurrence, at one place. *)
Lemma first_place_unique (u : string)
    (b1 b2 a1 a2 : list (node * list node)) (l1 l2 : node * list node) :
  b1 ++ l1 :: a1 = b2 ++ l2 :: a2 ->
  link_url urljoin l1 = Some (Returns u) ->
  link_url urljoin l2 = Some (Returns u) ->
  (forall other, other ∈ b1 -> link_url urljoin other <> Some (Returns u)) ->
  (forall other, other ∈ b2 -> link_url urljoin other <> Some (Returns u)) ->
  b1 = b2 /\ l1 = l2.
Proof.
  revert b2. induction b1 as [|x b1 IH]; intros b2 Heq Hu1 Hu2 Hb1 Hb2.
  - destruct b2 as [|y b2]; simpl in Heq; injection Heq as Hhead Htail; [done|].
    exfalso. apply (Hb2 y); [by left|by rewrite <- Hhead].
  - destruct b2 as [|y b2]; simpl in Heq; injection Heq as Hhead Htail.
    + exfalso. apply (Hb1 x); [by left|by rewrite Hhead].
    + destruct (IH b2 Htail Hu1 Hu2) as [-> ->].
      * intros o Ho. apply Hb1. by right.
      * intros o Ho. apply Hb2. by right.
      * by rewrite Hhead.
Qed.

Lemma first_occurrence_unique (links : list (node * list node)) (u : string)
    (l1 l2 : node * list node) :
  first_occurrence urljoin links u l1 ->
  first_occurrence urljoin links u l2 -> l1 = l2.
Proof.
  intros (b1 & a1 & H1 & Hu1 & Hb1 & _) (b2 & a2 & H2 & Hu2 & Hb2 & _).
  rewrite H1 in H2. by destruct (first_place_unique u _ _ _ _ _ _ H2).
Qed.

Lemma live_matches_of_soup_elem (soup : node) (u : string) :
  u ∈ live_matches_of_soup urljoin soup
  <-> exists link, first_occurrence urljoin (find_all_match_links soup) u link
                   /\ is_live (snd link) = true.
Proof.
  rewrite live_matches_of_soup_loop, live_loop_elem. split.
  - intros [H|[_ H]]; [by apply elem_of_nil in H | done].
  - intros H. right. split; [set_solver | done].
Qed.

(** A session that reaches the parse returns what the loops make of the
    page. *)
Lemma scrape_live_matches_parse (fuel : nat) (d : driver) (soup : node) :
  reaches_parse fuel d FIXTURES_URL soup ->
  scrape_live_matches urljoin fuel d
  = Some (Returns (live_matches_of_soup urljoin soup)).
Proof.
  intros (Hget & Hwait & (n & Hscroll) & Hsrc).
  unfold scrape_live_matches, safe_get, try_except.
  unfold mbind, outcome_bind, mret, outcome_ret.
  by rewrite Hget, Hwait, Hscroll, Hsrc.
Qed.

Lemma scrape_past_matches_parse (fuel : nat) (d : driver) (soup : node) :
  reaches_parse fuel d RESULTS_URL soup ->
  scrape_past_matches urljoin fuel d
  = Some (Returns (elements (past_matches_of_soup urljoin soup))).
Proof.
  intros (Hget & Hwait & (n & Hscroll) & Hsrc).
  unfold scrape_past_matches, safe_get, try_except.
  unfold mbind, outcome_bind, mret, outcome_ret.
  by rewrite Hget, Hwait, Hscroll, Hsrc.
Qed.

End ListingFacts.

Lemma find_parent_nearest (parents : list node) (container : node) :
  find_parent parents = Some container <-> nearest_marked parents container.
Proof.
  unfold find_parent, nearest_marked.
  induction parents as [|p ps IH]; simpl.
  - split; [done|]. intros (n & f & H & _). by destruct n.
  - destruct (class_matches p) eqn:Ep.
    + split.
      * intros [= ->]. exists [], ps. split; [done|]. split; [done|].
        intros q Hq. by apply elem_of_nil in Hq.
      * intros (n & f & H & Hc & Hn). destruct n as [|q n]; simpl in H.
        -- by injection H as -> _.
        -- injection H as -> _. rewrite Hn in Ep; [done|by left].
    + rewrite IH. split.
      * intros (n & f & -> & Hc & Hn). exists (p :: n), f.
        split; [done|]. split; [done|].
        intros q [->|Hq]%elem_of_cons; auto.
      * intros (n & f & H & Hc & Hn). destruct n as [|q n]; simpl in H.
        -- injection H as -> _. congruence.
        -- injection H as -> ->. exists n, f. split; [done|]. split; [done|].
           intros r Hr. apply Hn. by right.
Qed.

(** Lines 95-101 read as a condition on the parents of the link. *)
Lemma is_live_nearest (parents : list node) :
  is_live parents = true
  <-> exists container,
        nearest_marked parents container
        /\ ("live" ∈ get_class container
            \/ Text.contains "live" (Text.lower (text container)) = true).
Proof.
  unfold is_live. split.
  - destruct (find_parent parents) as [c|] eqn:E; [|done].
    intros H. exists c. split; [by apply find_parent_nearest|].
    apply orb_true_iff in H as [H|H]; [left|by right].
    apply existsb_exists in H as (x & Hx & ->%String.eqb_eq).
    by apply list_elem_of_In.
  - intros (c & Hc%find_parent_nearest & H). rewrite Hc.
    apply orb_true_iff. destruct H as [H|H]; [left|by right].
    apply existsb_exists. exists "live". split; [by apply list_elem_of_In|].
    apply String.eqb_refl.
Qed.

(** The live result on the page of scenario B, for any text of the first
    anchor, when [urljoin] returns on its [href]. *)
Lemma live_matches_scenario_B (urljoin : string -> string -> outcome string)
    (label u1 : string) :
  urljoin BASE_URL "/match/2024/1" = Returns u1 ->
  live_matches_of_soup urljoin (scenario_B label)
  = if Text.contains "live" (Text.lower label) then [u1] else [].
Proof.
  intros Hjoin. rewrite live_matches_of_soup_loop.
  change (find_all_match_links (scenario_B label))
    with [(anchor "/match/2024/1" label,
           [div ["status--live"] [anchor "/match/2024/1" label];
            scenario_B label]);
          (anchor "/match/2024/2" "Match 2",
           [div ["fixture"] [anchor "/match/2024/2" "Match 2"];
            scenario_B label])].
  rewrite live_loop_step.
  change (link_url urljoin (anchor "/match/2024/1" label, _))
    with (Some (urljoin BASE_URL "/match/2024/1")).
  rewrite Hjoin. cbv beta iota.
  case_decide as Hseen; [by apply not_elem_of_empty in Hseen|].
  cbn [snd].
  change (is_live [div ["status--live"] [anchor "/match/2024/1" label];
                   scenario_B label])
    with (Text.contains "live" (Text.lower label)).
  rewrite live_loop_step.
  change (link_url urljoin (anchor "/match/2024/2" "Match 2", _))
    with (Some (urljoin BASE_URL "/match/2024/2")).
  cbn [snd].
  change (is_live [div ["fixture"] [anchor "/match/2024/2" "Match 2"];
                   scenario_B label]) with false.
  destruct (urljoin BASE_URL "/match/2024/2") as [u2|e]; cbv beta iota.
  - case_decide; destruct (Text.contains "live" (Text.lower label)); reflexivity.
  - destruct (Text.contains "live" (Text.lower label)); reflexivity.
Qed.

Lemma static_session_reaches_parse (url : string) (soup : node) :
  reaches_parse 3 (static_session soup) url soup.
Proof.
  split; [reflexivity|]. split; [reflexivity|].
  split; [by exists 3|reflexivity].
Defined.

(** C4, as the code has it.  For a session that reaches the parse of the
    fixtures page, a URL is in the live result exactly when the first link
    with that URL is reached by the loop ([urljoin] raises on no link
    before it) and has, as nearest parent whose class attribute matches
    [(live|status--live)] case-insensitively, a container that carries the
    class token ["live"] itself or whose text contains ["live"]
    case-insensitively; all other links are left out.  On the page of
    scenario B the result is the URL of the first anchor when the text of
    the [status--live] container contains ["live"], and empty otherwise. *)
Theorem live_result_classification
    (urljoin : string -> string -> outcome string) (fuel : nat) (d : driver)
    (soup : node) :
  reaches_parse fuel d FIXTURES_URL soup ->
  exists urls,
    scrape_live_matches urljoin fuel d = Some (Returns urls)
    /\ (forall u,
          u ∈ urls
          <-> exists link container,
                first_occurrence urljoin (find_all_match_links soup) u link
                /\ nearest_marked (snd link) container
                /\ ("live" ∈ get_class container
                    \/ Text.contains "live" (Text.lower (text container)) = true))
    /\ (forall label u1,
          soup = scenario_B label ->
          urljoin BASE_URL "/match/2024/1" = Returns u1 ->
          urls = if Text.contains "live" (Text.lower label) then [u1] else []).
Proof.
  intros Hparse. exists (live_matches_of_soup urljoin soup).
  split; [by apply scrape_live_matches_parse|]. split.
  - intros u. rewrite live_matches_of_soup_elem. split.
    + intros (link & Hfirst & (c & Hc & Hlive)%is_live_nearest).
      by exists link, c.
    + intros (link & c & Hfirst & Hc & Hlive). exists link.
      split; [done|]. apply is_live_nearest. by exists c.
  - intros label u1 -> Hjoin. by apply live_matches_scenario_B.
Qed.

Lemma live_result_classification_witness :
  exists urls,
    scrape_live_matches strict_join 3 (static_session (scenario_B "LIVE"))
    = Some (Returns urls)
    /\ (forall u,
          u ∈ urls
          <-> exists link container,
                first_occurrence strict_join
                  (find_all_match_links (scenario_B "LIVE")) u link
                /\ nearest_marked (snd link) container
                /\ ("live" ∈ get_class container
                    \/ Text.contains "live" (Text.lower (text container)) = true))
    /\ (forall label u1,
          scenario_B "LIVE" = scenario_B label ->
          strict_join BASE_URL "/match/2024/1" = Returns u1 ->
          urls = if Text.contains "live" (Text.lower label) then [u1] else []).
Proof.
  apply (live_result_classification strict_join 3
           (static_session (scenario_B "LIVE")) (scenario_B "LIVE")).
  apply static_session_reaches_parse.
Defined.

(** C4 as stated fails on scenario B when the text below the
    [status--live] container does not contain ["live"]: the class token
    [status--live] is not the token ["live"], and the result is empty. *)
Lemma scenario_B_not_live :
  scrape_live_matches abs_join 3 (static_session (scenario_B "Match 1"))
  = Some (Returns [])
  /\ scrape_live_matches abs_join 3 (static_session (scenario_B "Match 1"))
     <> Some (Returns ["https://www.iplt20.com/match/2024/1"]).
Proof. split; [vm_compute; reflexivity | vm_compute; discriminate]. Qed.

(** When [urljoin] raises on a link, the links after it are not looked
    at: of three live links, the second of which has the [href]
    ["//[/match/2024/9"], only the first is returned. *)
Lemma links_after_bad_href_dropped :
  scrape_live_matches strict_join 3 (static_session broken_href_page)
  = Some (Returns ["https://www.iplt20.com/match/2024/1"])
  /\ scrape_past_matches strict_join 3 (static_session broken_href_page)
     = Some (Returns ["https://www.iplt20.com/match/2024/1"]).
Proof. split; vm_compute; reflexivity. Qed.

(** C6. The list a listing scrape returns, live or past, has no URL
    twice. *)
Theorem listing_scrape_no_duplicates
    (urljoin : string -> string -> outcome string) (fuel : nat) (d : driver)
    (urls : list string) :
  scrape_live_matches urljoin fuel d = Some (Returns urls)
  \/ scrape_past_matches urljoin fuel d = Some (Returns urls) ->
  NoDup urls.
Proof.
  assert (Hnil : NoDup (@nil string)) by constructor.
  assert (Hlive : forall soup, NoDup (live_matches_of_soup urljoin soup)).
  { intros soup. rewrite live_matches_of_soup_loop.
    apply live_loop_NoDup; [constructor|].
    intros u Hu. by apply elem_of_nil in Hu. }
  intros [H|H].
  - unfold scrape_live_matches in H.
    repeat case_match; simplify_eq; auto.
  - unfold scrape_past_matches in H.
    repeat case_match; simplify_eq; auto; apply NoDup_elements.
Qed.

Lemma listing_scrape_no_duplicates_witness :
  (scrape_live_matches abs_join 3 (static_session duplicate_later_live)
   = Some (Returns ["https://www.iplt20.com/match/2024/8"])
   \/ scrape_past_matches abs_join 3 (static_session duplicate_later_live)
      = Some (Returns ["https://www.iplt20.com/match/2024/8"]))
  /\ NoDup ["https://www.iplt20.com/match/2024/8"].
Proof.
  assert (H : scrape_live_matches abs_join 3 (static_session duplicate_later_live)
              = Some (Returns ["https://www.iplt20.com/match/2024/8"])
              \/ scrape_past_matches abs_join 3 (static_session duplicate_later_live)
                 = Some (Returns ["https://www.iplt20.com/match/2024/8"]))
    by (left; vm_compute; reflexivity).
  split; [exact H|].
  exact (listing_scrape_no_duplicates abs_join 3
           (static_session duplicate_later_live) _ H).
Defined.



(** On that page the later occurrence of the first URL is below a [live]
    container, yet the URL is not in the result. *)
Lemma later_live_duplicate_ignored :
  is_live (snd first_link_of_duplicate) = false
  /\ scrape_live_matches abs_join 3 (static_session duplicate_later_live)
     = Some (Returns ["https://www.iplt20.com/match/2024/8"]).
Proof. split; vm_compute; reflexivity. Qed.

(* ===================================================================== *)
(** ** More on the scroll loop *)
(* ===================================================================== *)

Section ScrollExit.

Variable d : driver.

(** The loop counts at least the iteration it starts with. *)
Lemma scroll_loop_counts (fuel : nat) :
  forall (done stall : nat) (last_height : Z) (r : outcome unit) (n : nat),
    scroll_loop fuel d done last_height stall = Some (r, n) -> done < n.
Proof.
  induction fuel as [|fuel IH]; intros done stall last_height r n H;
    [discriminate|].
  rewrite scroll_loop_unfold in H.
  destruct (scroll_to_bottom d done ;; scroll_height d (S done)) as [new|e].
  - destruct (Z.eqb new last_height).
    + destruct (Nat.leb _ _); [injection H as _ <-; lia|].
      apply IH in H. lia.
    + apply IH in H. lia.
  - destruct (is_WebDriverException e); injection H as _ <-; lia.
Qed.

(** When no script raises, the loop can only end on the stall rule, and
    then the last read and the three before it are the same. *)
Lemma scroll_loop_exit (fuel : nat) :
  forall (done stall : nat) (last_height : Z) (r : outcome unit) (n : nat),
    scroll_loop fuel d done last_height stall = Some (r, n) ->
    scripts_succeed d n ->
    stall <= done ->
    (forall j, j <= stall -> scroll_height d (done - j) = Returns last_height) ->
    r = Returns tt /\ 3 <= n
    /\ exists h, forall j, j <= 3 -> scroll_height d (n - j) = Returns h.
Proof.
  induction fuel as [|fuel IH];
    intros done stall last_height r n H [Hto Hread] Hle Hinv; [discriminate|].
  pose proof (scroll_loop_counts _ _ _ _ _ _ H) as Hn.
  rewrite scroll_loop_unfold in H.
  rewrite (Hto done Hn) in H. unfold mbind, outcome_bind in H.
  destruct (Hread (S done)) as [new Hnew]; [lia|]. rewrite Hnew in H.
  destruct (Z.eqb new last_height) eqn:Eh.
  - apply Z.eqb_eq in Eh. subst new.
    assert (Hinv' : forall j, j <= S stall ->
              scroll_height d (S done - j) = Returns last_height).
    { intros [|j] Hj; [done|]. replace (S done - S j) with (done - j) by lia.
      apply Hinv. lia. }
    destruct (Nat.leb MAX_SCROLL_ATTEMPTS_WITHOUT_CHANGE (S stall)) eqn:Em.
    + apply Nat.leb_le in Em. unfold MAX_SCROLL_ATTEMPTS_WITHOUT_CHANGE in Em.
      injection H as <- <-. split; [done|]. split; [lia|].
      exists last_height. intros j Hj. apply Hinv'. lia.
    + apply (IH _ _ _ _ _ H); [done | lia | done].
  - apply (IH _ _ _ _ _ H); [done | lia |].
    intros j Hj. replace (S done - j) with (S done) by lia. done.
Qed.

End ScrollExit.

(** X1. When [scroll_page] stops and no script has raised, it has stopped
    on the stall rule: the loop body ran at least three times and the last
    read of the height equals the three reads before it. *)
Theorem scroll_page_stops_on_stable_height
    (d : driver) (fuel : nat) (r : outcome unit) (n : nat) :
  scroll_page fuel d = Some (r, n) ->
  scripts_succeed d n ->
  r = Returns tt /\ 3 <= n
  /\ exists h, forall j, j <= 3 -> scroll_height d (n - j) = Returns h.
Proof.
  intros H Hok. unfold scroll_page in H.
  destruct (proj2 Hok 0) as [h0 H0]; [lia|]. rewrite H0 in H.
  apply (scroll_loop_exit d _ _ _ _ _ _ H Hok); [lia|].
  intros j Hj. replace (0 - j) with 0 by lia. done.
Qed.

Lemma scroll_page_stops_on_stable_height_witness :
  Returns tt = Returns tt /\ 3 <= 6
  /\ exists h, forall j, j <= 3 -> scroll_height late_growth (6 - j) = Returns h.
Proof.
  apply (scroll_page_stops_on_stable_height late_growth 10 (Returns tt) 6).
  - reflexivity.
  - split; intros i Hi; [reflexivity|]. by eexists.
Defined.

(** X2. The loop has no ceiling of its own: when no script raises and the
    height changes at least once in every three consecutive reads, the loop
    is still running whatever fuel it is given, that is, [scroll_page]
    does not return. *)
Theorem scroll_page_runs_forever (d : driver) :
  (forall i, scroll_to_bottom d i = Returns tt) ->
  (forall i, exists h, scroll_height d i = Returns h) ->
  (forall i, exists j, j < 3 /\ scroll_height d (i + j) <> scroll_height d (i + S j)) ->
  forall fuel, scroll_page fuel d = None.
Proof.
  intros Hto Hread Hgrow fuel.
  destruct (scroll_page fuel d) as [[r n]|] eqn:E; [|done].
  exfalso.
  unfold scroll_page in E. destruct (Hread 0) as [h0 H0]. rewrite H0 in E.
  destruct (scroll_loop_exit d _ _ _ _ _ _ E) as (_ & Hn & h & Hh).
  { split; intros i _; [apply Hto | apply Hread]. }
  { lia. }
  { intros j Hj. by replace (0 - j) with 0 by lia. }
  destruct (Hgrow (n - 3)) as (j & Hj & Hne). apply Hne.
  replace (n - 3 + j) with (n - (3 - j)) by lia.
  replace (n - 3 + S j) with (n - (2 - j)) by lia.
  rewrite !Hh by lia. done.
Qed.

Lemma scroll_page_runs_forever_witness :
  scroll_page 1000 ever_growing = None.
Proof.
  apply (scroll_page_runs_forever ever_growing).
  - intros i. reflexivity.
  - intros i. by eexists.
  - intros i. exists 0. split; [lia|]. simpl. intros [= H]. lia.
Defined.

Section ScrollConsecutive.

Variable d : driver.
Variable k : nat.
Hypothesis scrolls : forall i, scroll_to_bottom d i = Returns tt.
Hypothesis reads : forall i, exists h, scroll_height d i = Returns h.
Hypothesis grows : forall i, i < k -> scroll_height d i <> scroll_height d (S i).
Hypothesis settles : forall i, k <= i -> scroll_height d i = scroll_height d k.

(** One iteration when no script raises. *)
Lemma scroll_loop_turn (fuel count stall : nat) (last_height new_height : Z) :
  scroll_height d (S count) = Returns new_height ->
  scroll_loop (S fuel) d count last_height stall
  = if Z.eqb new_height last_height then
      if Nat.leb MAX_SCROLL_ATTEMPTS_WITHOUT_CHANGE (S stall)
      then Some (Returns tt, S count)
      else scroll_loop fuel d (S count) new_height (S stall)
    else scroll_loop fuel d (S count) new_height 0.
Proof.
  intros H. rewrite scroll_loop_unfold, scrolls. unfold mbind, outcome_bind.
  by rewrite H.
Qed.

(** Once the height has settled, three more iterations end the loop. *)
Lemma scroll_loop_settled (fuel : nat) (h : Z) :
  scroll_height d k = Returns h ->
  3 <= fuel ->
  scroll_loop fuel d k h 0 = Some (Returns tt, k + 3).
Proof.
  intros Hk Hfuel.
  assert (Hafter : forall i, k <= i -> scroll_height d i = Returns h).
  { intros i Hi. by rewrite settles. }
  destruct fuel as [|[|[|fuel]]]; [lia..|].
  rewrite (scroll_loop_turn _ _ _ _ h) by (apply Hafter; lia).
  rewrite Z.eqb_refl. cbn [Nat.leb MAX_SCROLL_ATTEMPTS_WITHOUT_CHANGE].
  rewrite (scroll_loop_turn _ _ _ _ h) by (apply Hafter; lia).
  rewrite Z.eqb_refl. cbn [Nat.leb MAX_SCROLL_ATTEMPTS_WITHOUT_CHANGE].
  rewrite (scroll_loop_turn _ _ _ _ h) by (apply Hafter; lia).
  rewrite Z.eqb_refl. cbn [Nat.leb MAX_SCROLL_ATTEMPTS_WITHOUT_CHANGE].
  do 2 f_equal. lia.
Qed.

(** While the height grows, each iteration restarts the stall count. *)
Lemma scroll_loop_growing (m : nat) :
  forall (count fuel : nat) (h : Z),
    count + m = k ->
    scroll_height d count = Returns h ->
    m + 3 <= fuel ->
    scroll_loop fuel d count h 0 = Some (Returns tt, k + 3).
Proof.
  induction m as [|m IH]; intros count fuel h Hk Hh Hfuel.
  - replace count with k in * by lia. by apply scroll_loop_settled.
  - destruct fuel as [|fuel]; [lia|].
    destruct (reads (S count)) as [h' Hh'].
    rewrite (scroll_loop_turn _ _ _ _ h') by done.
    assert (Hne : h' <> h).
    { intros ->. apply (grows count); [lia|]. by rewrite Hh, Hh'. }
    apply Z.eqb_neq in Hne. rewrite Hne.
    apply IH; [lia | done | lia].
Qed.

End ScrollConsecutive.

(** X3. When no script raises, the height changes at each of the first
    [k] reads and never afterwards, the loop body runs exactly [k + 3]
    times: [k + 3] units of fuel are enough and more give the same. *)
Theorem scroll_page_consecutive_changes (d : driver) (k : nat) :
  (forall i, scroll_to_bottom d i = Returns tt) ->
  (forall i, exists h, scroll_height d i = Returns h) ->
  (forall i, i < k -> scroll_height d i <> scroll_height d (S i)) ->
  (forall i, k <= i -> scroll_height d i = scroll_height d k) ->
  forall fuel, k + 3 <= fuel ->
    scroll_page fuel d = Some (Returns tt, k + 3).
Proof.
  intros Hto Hread Hgrow Hsettle fuel Hfuel. unfold scroll_page.
  destruct (Hread 0) as [h0 H0]. rewrite H0.
  by apply (scroll_loop_growing d k Hto Hread Hgrow Hsettle k 0 fuel h0).
Qed.

Lemma scroll_page_consecutive_changes_witness :
  scroll_page 8 grows_twice = Some (Returns tt, 2 + 3).
Proof.
  apply (scroll_page_consecutive_changes grows_twice 2).
  - intros i. reflexivity.
  - intros i. by eexists.
  - intros i Hi. simpl. intros [= H]. lia.
  - intros i Hi. simpl. f_equal. f_equal. lia.
  - lia.
Defined.

(* ===================================================================== *)
(** ** More on the listings *)
(* ===================================================================== *)

(** A selenium error raised inside the loop ends [scroll_page] normally. *)
Lemma scroll_loop_swallows (d : driver) (fuel : nat) :
  (forall i e, scroll_to_bottom d i = Raises e -> is_WebDriverException e = true) ->
  (forall i e, scroll_height d (S i) = Raises e -> is_WebDriverException e = true) ->
  forall (count stall : nat) (last_height : Z) (r : outcome unit) (n : nat),
    scroll_loop fuel d count last_height stall = Some (r, n) -> r = Returns tt.
Proof.
  intros Hto Hread.
  induction fuel as [|fuel IH]; intros count stall last_height r n H;
    [discriminate|].
  rewrite scroll_loop_unfold in H. unfold mbind, outcome_bind in H.
  destruct (scroll_to_bottom d count) as [[]|e1] eqn:E1.
  2:{ rewrite (Hto _ _ E1) in H. by injection H as <- _. }
  destruct (scroll_height d (S count)) as [new|e2] eqn:E2.
  2:{ rewrite (Hread _ _ E2) in H. by injection H as <- _. }
  destruct (Z.eqb new last_height); [|by eapply IH].
  destruct (Nat.leb _ _); [by injection H as <- _ | by eapply IH].
Qed.

Section MoreListingFacts.

Variable urljoin : string -> string -> outcome string.

Lemma past_loop_step (link : node * list node) (rest : list (node * list node))
    (acc : gset string) :
  past_loop urljoin (link :: rest) acc
  = match link_url urljoin link with
    | None => past_loop urljoin rest acc
    | Some (Raises e) => (acc, Raises e)
    | Some (Returns u) => past_loop urljoin rest ({[u]} ∪ acc)
    end.
Proof.
  destruct link as [link_tag parents]. unfold link_url. simpl.
  destruct (get_attr "href" link_tag) as [href|]; [|done].
  by destruct (Text.truthy href).
Qed.

(** The set the list is made of is the set the loop is left with. *)
Lemma past_matches_of_soup_loop (soup : node) :
  past_matches_of_soup urljoin soup
  = fst (past_loop urljoin (find_all_match_links soup) ∅).
Proof.
  unfold past_matches_of_soup.
  by destruct (past_loop urljoin (find_all_match_links soup) ∅) as [l [[]|e]].
Qed.

(** What the loop adds: the URLs of the links it gets to. *)
Lemma past_loop_elem (links : list (node * list node)) :
  forall (acc : gset string) (u : string),
    u ∈ fst (past_loop urljoin links acc)
    <-> (u ∈ acc)
        \/ exists before link after,
             links = before ++ link :: after
             /\ link_url urljoin link = Some (Returns u)
             /\ loop_passes urljoin before.
Proof.
  induction links as [|link rest IH]; intros acc u.
  { simpl. split; [auto|]. intros [H|(b & l & a & H & _)]; [done|].
    by destruct b. }
  rewrite past_loop_step.
  assert (Hlater : forall b l a,
            (forall e, link_url urljoin link <> Some (Raises e)) ->
            rest = b ++ l :: a /\ link_url urljoin l = Some (Returns u)
            /\ loop_passes urljoin b ->
            link :: rest = (link :: b) ++ l :: a
            /\ link_url urljoin l = Some (Returns u)
            /\ loop_passes urljoin (link :: b)).
  { intros b l a Hok (-> & Hu & Hpass). split; [done|]. split; [done|].
    intros o e [->|Ho]%elem_of_cons; [apply Hok|by apply Hpass]. }
  destruct (link_url urljoin link) as [[v|e]|] eqn:Ev.
  - rewrite IH, elem_of_union, elem_of_singleton. split.
    + intros [[->|H]|(b & l & a & H)]; [|by left|].
      * right. exists [], link, rest. split; [done|]. split; [done|].
        intros o e Ho. by apply elem_of_nil in Ho.
      * right. exists (link :: b), l, a. by apply Hlater.
    + intros [H|(b & l & a & Heq & Hu & Hpass)]; [by left; right|].
      destruct b as [|x b]; simpl in Heq; injection Heq as -> ->.
      * left. left. congruence.
      * right. exists b, l, a. split; [done|]. split; [done|].
        intros o e Ho. apply Hpass. by right.
  - simpl. split; [by left|]. intros [H|(b & l & a & Heq & Hu & Hpass)]; [done|].
    exfalso. destruct b as [|x b]; simpl in Heq; injection Heq as -> ->.
    + congruence.
    + apply (Hpass x e); [by left|done].
  - rewrite IH. split.
    + intros [H|(b & l & a & H)]; [by left|]. right.
      exists (link :: b), l, a. by apply Hlater.
    + intros [H|(b & l & a & Heq & Hu & Hpass)]; [by left|].
      destruct b as [|x b]; simpl in Heq; injection Heq as -> ->.
      * congruence.
      * right. exists b, l, a. split; [done|]. split; [done|].
        intros o e Ho. apply Hpass. by right.
Qed.

(** What the live loop adds comes in the order of the links. *)
Lemma live_loop_sublist (links : list (node * list node)) :
  forall (acc : list string) (seen : gset string),
    exists added,
      fst (live_loop urljoin links acc seen) = acc ++ added
      /\ added `sublist_of` omap (returned_url urljoin) links.
Proof.
  induction links as [|link rest IH]; intros acc seen.
  { exists []. simpl. by rewrite app_nil_r. }
  rewrite live_loop_step. cbn [omap list_omap]. unfold returned_url at 1.
  destruct (link_url urljoin link) as [[u|e]|] eqn:Eu.
  - destruct (decide (u ∈ seen)).
    { destruct (IH acc seen) as (added & -> & Hsub). exists added.
      split; [done|]. by apply sublist_cons. }
    destruct (is_live (snd link)).
    + destruct (IH (acc ++ [u]) ({[u]} ∪ seen)) as (added & -> & Hsub).
      exists (u :: added). split; [by rewrite <- app_assoc|].
      by apply sublist_skip.
    + destruct (IH acc ({[u]} ∪ seen)) as (added & -> & Hsub). exists added.
      split; [done|]. by apply sublist_cons.
  - exists []. simpl. split; [by rewrite app_nil_r|]. apply sublist_nil_l.
  - destruct (IH acc seen) as (added & -> & Hsub). by exists added.
Qed.

(** The links [find_all] returns are anchors with an [href] the pattern
    matches, so each of them is handed to [urljoin]. *)
Lemma match_href_search_nonempty (href : string) :
  match_href_search href = true -> Text.truthy href = true.
Proof. by destruct href. Qed.

Lemma match_link_url (n : node) (parents : list node) :
  is_match_link n = true ->
  tag_name n = Some "a"
  /\ exists href,
       get_attr "href" n = Some href
       /\ match_href_search href = true
       /\ link_url urljoin (n, parents) = Some (urljoin BASE_URL href).
Proof.
  unfold is_match_link, link_url. cbn [fst].
  destruct (tag_name n) as [nm|]; [|done].
  destruct (get_attr "href" n) as [href|]; [|done].
  intros [Hnm Hre]%andb_true_iff. apply String.eqb_eq in Hnm as ->.
  split; [done|]. exists href. split; [done|]. split; [done|].
  by rewrite (match_href_search_nonempty _ Hre).
Qed.

End MoreListingFacts.

(** X4. The only exception that leaves [scrape_live_matches] or
    [scrape_past_matches] is one raised by [driver.get] that is not a
    [WebDriverException]; every other failure ends in a returned list. *)
Theorem listing_scrape_raises_only_from_get
    (urljoin : string -> string -> outcome string) (fuel : nat) (d : driver) (e : exn) :
  (scrape_live_matches urljoin fuel d = Some (Raises e)
   <-> get d FIXTURES_URL = Raises e /\ is_WebDriverException e = false)
  /\ (scrape_past_matches urljoin fuel d = Some (Raises e)
      <-> get d RESULTS_URL = Raises e /\ is_WebDriverException e = false).
Proof.
  unfold scrape_live_matches, scrape_past_matches, safe_get, try_except.
  unfold mbind, outcome_bind, mret, outcome_ret.
  split.
  - destruct (get d FIXTURES_URL) as [[]|e'].
    + split; [|by intros [? _]]. repeat case_match; by intros.
    + destruct (is_WebDriverException e') eqn:E.
      * split; [done|]. intros [[= ->] H]. congruence.
      * split; [by intros [= ->]|]. by intros [[= ->] _].
  - destruct (get d RESULTS_URL) as [[]|e'].
    + split; [|by intros [? _]]. repeat case_match; by intros.
    + destruct (is_WebDriverException e') eqn:E.
      * split; [done|]. intros [[= ->] H]. congruence.
      * split; [by intros [= ->]|]. by intros [[= ->] _].
Qed.

(** X5. A selenium error raised by a script inside the scroll loop does
    not lose the page: once the navigation and the wait have succeeded and
    the first read of the height has returned, a scroll loop that ends
    within the fuel is followed by the parse of the page source, in both
    listing scrapes. *)
Theorem listing_parses_after_scroll_failure
    (urljoin : string -> string -> outcome string) (fuel : nat) (d : driver)
    (soup : node) (h0 : Z) (r : outcome unit) (n : nat) :
  wait_presence d "a[href*='/match/']" = Returns tt ->
  scroll_height d 0 = Returns h0 ->
  (forall i e, scroll_to_bottom d i = Raises e -> is_WebDriverException e = true) ->
  (forall i e, scroll_height d (S i) = Raises e -> is_WebDriverException e = true) ->
  scroll_page fuel d = Some (r, n) ->
  page_source d = Returns soup ->
  (get d FIXTURES_URL = Returns tt ->
   scrape_live_matches urljoin fuel d
   = Some (Returns (live_matches_of_soup urljoin soup)))
  /\ (get d RESULTS_URL = Returns tt ->
      scrape_past_matches urljoin fuel d
      = Some (Returns (elements (past_matches_of_soup urljoin soup)))).
Proof.
  intros Hwait H0 Hto Hread Hscroll Hsrc.
  assert (r = Returns tt) as ->.
  { unfold scroll_page in Hscroll. rewrite H0 in Hscroll.
    by eapply scroll_loop_swallows. }
  split; intros Hget.
  - apply scrape_live_matches_parse. repeat split; eauto.
  - apply scrape_past_matches_parse. repeat split; eauto.
Qed.

Lemma listing_parses_after_scroll_failure_witness :
  (get (scroll_breaks (scenario_B "LIVE")) FIXTURES_URL = Returns tt ->
   scrape_live_matches abs_join 1 (scroll_breaks (scenario_B "LIVE"))
   = Some (Returns (live_matches_of_soup abs_join (scenario_B "LIVE"))))
  /\ (get (scroll_breaks (scenario_B "LIVE")) RESULTS_URL = Returns tt ->
      scrape_past_matches abs_join 1 (scroll_breaks (scenario_B "LIVE"))
      = Some (Returns (elements (past_matches_of_soup abs_join
                                   (scenario_B "LIVE"))))).
Proof.
  apply (listing_parses_after_scroll_failure abs_join 1
           (scroll_breaks (scenario_B "LIVE")) (scenario_B "LIVE")
           1000%Z (Returns tt) 1).
  - reflexivity.
  - reflexivity.
  - intros i e [= <-]. reflexivity.
  - intros i e H. discriminate H.
  - reflexivity.
  - reflexivity.
Defined.

(** X6. When the first read of the height, before the loop, raises, the
    page is not parsed: both listing scrapes return the empty list,
    whatever the page holds. *)
Theorem listing_empty_when_height_unreadable
    (urljoin : string -> string -> outcome string) (fuel : nat) (d : driver) (e : exn) :
  scroll_height d 0 = Raises e ->
  wait_presence d "a[href*='/match/']" = Returns tt ->
  (get d FIXTURES_URL = Returns tt ->
   scrape_live_matches urljoin fuel d = Some (Returns []))
  /\ (get d RESULTS_URL = Returns tt ->
      scrape_past_matches urljoin fuel d = Some (Returns [])).
Proof.
  intros H0 Hwait.
  unfold scrape_live_matches, scrape_past_matches, safe_get, try_except.
  unfold mbind, outcome_bind, mret, outcome_ret, scroll_page.
  split; intros Hget; rewrite Hget, Hwait, H0; [done|].
  by rewrite elements_empty.
Qed.

Lemma listing_empty_when_height_unreadable_witness :
  (get (height_unreadable (scenario_B "LIVE")) FIXTURES_URL = Returns tt ->
   scrape_live_matches abs_join 5 (height_unreadable (scenario_B "LIVE"))
   = Some (Returns []))
  /\ (get (height_unreadable (scenario_B "LIVE")) RESULTS_URL = Returns tt ->
      scrape_past_matches abs_join 5 (height_unreadable (scenario_B "LIVE"))
      = Some (Returns [])).
Proof.
  apply (listing_empty_when_height_unreadable abs_join 5
           (height_unreadable (scenario_B "LIVE")) WebDriverException).
  - reflexivity.
  - reflexivity.
Defined.

(** X7. For a session that reaches the parse of the results page,
    [scrape_past_matches] returns exactly the absolute URLs of the match
    links the loop gets to, that is, those with no link before them on
    whose [href] [urljoin] raises: among these no link is filtered out,
    and nothing else is added.  When [urljoin] raises on no link, these
    are the URLs of all the match links of the page. *)
Theorem past_result_is_all_links
    (urljoin : string -> string -> outcome string) (fuel : nat) (d : driver)
    (soup : node) :
  reaches_parse fuel d RESULTS_URL soup ->
  exists urls,
    scrape_past_matches urljoin fuel d = Some (Returns urls)
    /\ (forall u,
          u ∈ urls
          <-> exists before link after,
                find_all_match_links soup = before ++ link :: after
                /\ link_url urljoin link = Some (Returns u)
                /\ loop_passes urljoin before)
    /\ (loop_passes urljoin (find_all_match_links soup) ->
        forall u,
          u ∈ urls
          <-> exists link,
                link ∈ find_all_match_links soup
                /\ link_url urljoin link = Some (Returns u)).
Proof.
  intros Hparse. exists (elements (past_matches_of_soup urljoin soup)).
  split; [by apply scrape_past_matches_parse|].
  assert (Hiff : forall u,
            u ∈ elements (past_matches_of_soup urljoin soup)
            <-> exists before link after,
                  find_all_match_links soup = before ++ link :: after
                  /\ link_url urljoin link = Some (Returns u)
                  /\ loop_passes urljoin before).
  { intros u. rewrite elem_of_elements, past_matches_of_soup_loop.
    rewrite past_loop_elem. split; [|by right].
    intros [H|H]; [|done]. by apply not_elem_of_empty in H. }
  split; [done|].
  intros Hall u. rewrite Hiff. split.
  - intros (b & l & a & Heq & Hu & _). exists l. split; [|done].
    rewrite Heq. apply elem_of_app. right. by left.
  - intros (l & [b [a Heq]]%list_elem_of_split & Hu).
    exists b, l, a. split; [done|]. split; [done|].
    intros o e Ho. apply Hall. rewrite Heq. apply elem_of_app. by left.
Qed.

Lemma past_result_is_all_links_witness :
  exists urls,
    scrape_past_matches strict_join 3 (static_session broken_href_page)
    = Some (Returns urls)
    /\ (forall u,
          u ∈ urls
          <-> exists before link after,
                find_all_match_links broken_href_page = before ++ link :: after
                /\ link_url strict_join link = Some (Returns u)
                /\ loop_passes strict_join before)
    /\ (loop_passes strict_join (find_all_match_links broken_href_page) ->
        forall u,
          u ∈ urls
          <-> exists link,
                link ∈ find_all_match_links broken_href_page
                /\ link_url strict_join link = Some (Returns u)).
Proof.
  apply (past_result_is_all_links strict_join 3
           (static_session broken_href_page) broken_href_page).
  apply static_session_reaches_parse.
Defined.

(** X8. The live result keeps the document order: it is a sublist of the
    URLs of the match links taken in the order of the page. *)
Theorem live_result_in_document_order
    (urljoin : string -> string -> outcome string) (fuel : nat) (d : driver)
    (soup : node) :
  reaches_parse fuel d FIXTURES_URL soup ->
  exists urls,
    scrape_live_matches urljoin fuel d = Some (Returns urls)
    /\ urls `sublist_of` omap (returned_url urljoin) (find_all_match_links soup).
Proof.
  intros Hparse. exists (live_matches_of_soup urljoin soup).
  split; [by apply scrape_live_matches_parse|].
  rewrite live_matches_of_soup_loop.
  by destruct (live_loop_sublist urljoin (find_all_match_links soup) [] ∅)
    as (added & -> & Hsub).
Qed.

Lemma live_result_in_document_order_witness :
  exists urls,
    scrape_live_matches abs_join 3 (static_session duplicate_later_live)
    = Some (Returns urls)
    /\ urls `sublist_of` omap (returned_url abs_join)
                           (find_all_match_links duplicate_later_live).
Proof.
  apply (live_result_in_document_order abs_join 3
           (static_session duplicate_later_live) duplicate_later_live).
  apply static_session_reaches_parse.
Defined.

(** X9. Every link [find_all] returns is an anchor whose [href] the
    pattern [/match/\d+/\d+] matches; its [href] is therefore not empty and
    the loops hand it to [urljoin]: the [continue] of lines 86-87 and
    146-147 is never taken. *)
Theorem found_links_have_urls
    (urljoin : string -> string -> outcome string) (soup : node)
    (link : node * list node) :
  link ∈ find_all_match_links soup ->
  tag_name (fst link) = Some "a"
  /\ exists href,
       get_attr "href" (fst link) = Some href
       /\ match_href_search href = true
       /\ link_url urljoin link = Some (urljoin BASE_URL href).
Proof.
  unfold find_all_match_links. rewrite list_elem_of_In, filter_In.
  intros [_ H]. destruct link as [n parents]. by apply match_link_url.
Qed.

Lemma found_links_have_urls_witness :
  tag_name (fst first_link_of_duplicate) = Some "a"
  /\ exists href,
       get_attr "href" (fst first_link_of_duplicate) = Some href
       /\ match_href_search href = true
       /\ link_url abs_join first_link_of_duplicate
          = Some (abs_join BASE_URL href).
Proof.
  apply (found_links_have_urls abs_join duplicate_later_live).
  vm_compute. apply list_elem_of_here.
Defined.

(* ===================================================================== *)
(** ** More on the commentary *)
(* ===================================================================== *)

Lemma lstrip_by_first (p : ascii -> bool) (s : string) (c : ascii) :
  first_char (Text.lstrip_by p s) = Some c -> p c = false.
Proof.
  induction s as [|a s IH]; simpl; [done|].
  destruct (p a) eqn:E; [done|]. by intros [= <-].
Qed.

Lemma rstrip_by_first (p : ascii -> bool) (s : string) (c : ascii) :
  first_char (Text.rstrip_by p s) = Some c -> first_char s = Some c.
Proof.
  destruct s as [|a s]; simpl; [done|].
  destruct (Text.rstrip_by p s); [|done].
  by destruct (p a).
Qed.

Lemma rstrip_by_last (p : ascii -> bool) (s : string) (c : ascii) :
  last_char (Text.rstrip_by p s) = Some c -> p c = false.
Proof.
  induction s as [|a s IH]; simpl; [done|].
  destruct (Text.rstrip_by p s) as [|b r] eqn:E.
  - destruct (p a) eqn:Ea; simpl; [done|]. by intros [= <-].
  - intros H. apply IH. exact H.
Qed.

Lemma strip_chars_ends (chars s : string) (a b : ascii) :
  (first_char (Text.strip_chars chars s) = Some a -> Text.char_in a chars = false)
  /\ (last_char (Text.strip_chars chars s) = Some b -> Text.char_in b chars = false).
Proof.
  unfold Text.strip_chars. split.
  - intros H%rstrip_by_first. by apply lstrip_by_first in H.
  - apply (rstrip_by_last (fun c => Text.char_in c chars)).
Qed.

Lemma ends_of_nonempty (s : string) :
  0 < String.length s -> exists a b, first_char s = Some a /\ last_char s = Some b.
Proof.
  induction s as [|c s IH]; simpl; [lia|]. intros _.
  destruct s as [|c' s']; [by exists c, c|].
  destruct IH as (a & b & _ & Hb); [simpl; lia|]. by exists c, b.
Qed.

Lemma entry_of_stripped (o r st t entry : string) :
  entry_of o r st t = Some entry ->
  exists joined, entry = Text.strip_chars " - " joined.
Proof.
  unfold entry_of. destruct (Text.truthy t); [|done].
  destruct (Nat.ltb 5 _); [|done]. intros [= <-]. by eexists.
Qed.

(** X11. Every entry of the result is trimmed: it neither starts nor ends
    with a space or a hyphen. *)
Theorem parse_commentary_entries_trimmed
    (fault : node -> option exn) (soup : node)
    (event_sel over_sel run_sel start_sel text_sel : selector) (entry : string) :
  entry ∈ parse_commentary_from_soup fault soup event_sel over_sel run_sel
            start_sel text_sel ->
  exists a b : ascii,
    first_char entry = Some a /\ last_char entry = Some b
    /\ a <> " "%char /\ a <> "-"%char /\ b <> " "%char /\ b <> "-"%char.
Proof.
  rewrite parse_commentary_from_soup_contributions, rev_reverse, elem_of_reverse.
  intros (e & _ & He)%elem_of_contributions.
  apply contribution_entry_of in He as (o & r & st & t & He).
  pose proof (entry_of_length _ _ _ _ _ He) as Hlen.
  destruct (ends_of_nonempty entry) as (a & b & Ha & Hb); [lia|].
  exists a, b. split; [done|]. split; [done|].
  apply entry_of_stripped in He as [joined ->].
  destruct (strip_chars_ends " - " joined a b) as [Hfirst Hlast].
  specialize (Hfirst Ha). specialize (Hlast Hb).
  repeat split; intros ->; done.
Qed.

Lemma parse_commentary_entries_trimmed_witness :
  exists a b : ascii,
    first_char "1.3 (1) - Starc to Gill - single taken" = Some a
    /\ last_char "1.3 (1) - Starc to Gill - single taken" = Some b
    /\ a <> " "%char /\ a <> "-"%char /\ b <> " "%char /\ b <> "-"%char.
Proof.
  apply (parse_commentary_entries_trimmed no_fault middle_without_description
           commentary_event_selector over_selector run_selector
           start_text_selector text_selector).
  vm_compute. repeat constructor.
Defined.

Section MatchCommentaryPaths.

Variable fault : node -> option exn.
Variable d : driver.
Variable url : string.
Hypothesis reached : get d url = Returns tt.

(** What the function returns once the tabs are known. *)
Lemma scrape_match_commentary_after_discovery (tabs : list web_element) :
  discover_tabs d = Returns tabs ->
  scrape_match_commentary fault d url
  = match process_inning fault d tabs with
    | Returns (Some inning_commentary) => Returns inning_commentary
    | Returns None => Returns []
    | Raises _ => Returns []
    end.
Proof.
  intros H. unfold scrape_match_commentary, safe_get, try_except.
  unfold mbind, outcome_bind, mret, outcome_ret. rewrite reached, H.
  by destruct (process_inning fault d tabs) as [[entries|]|exc].
Qed.

End MatchCommentaryPaths.

(** X12. When the tab of the first inning is there, a click that is
    intercepted, a stale tab or a timeout around the click does not stop
    the scrape: the panel currently rendered is parsed and its entries are
    returned. *)
Theorem commentary_parsed_despite_click_failure
    (fault : node -> option exn) (d : driver) (url : string) (soup : node)
    (found : list web_element) (first_found tab : web_element)
    (others_found others : list web_element) (shown : string) :
  get d url = Returns tt ->
  wait_presence d tabs_or_container_selector = Returns tt ->
  find_elements d innings_tab_selector 0 = Returns (first_found :: others_found) ->
  find_elements d innings_tab_selector 1 = Returns (tab :: others) ->
  (forall n, we_text tab n = Returns shown) ->
  click_tolerated (wait_clickable d innings_tab_selector) ->
  click_tolerated (we_click tab) ->
  click_tolerated (wait_presence d active_commentary_container_selector) ->
  page_source d = Returns soup ->
  scrape_match_commentary fault d url
  = Returns (parse_commentary_from_soup fault soup commentary_event_selector
               over_selector run_selector start_text_selector text_selector).
Proof.
  intros Hget Hwait Hfind0 Hfind1 Htext Hclickable Hclick Hcontainer Hsrc.
  rewrite (scrape_match_commentary_after_discovery fault d url Hget
             (first_found :: others_found)).
  2:{ unfold discover_tabs, try_except, mbind, outcome_bind.
      fold tabs_or_container_selector. by rewrite Hwait, Hfind0. }
  assert (Hclicked : click_tab d (tab :: others) = Returns true).
  { unfold click_tab, try_except, mbind, outcome_bind, mret, outcome_ret.
    unfold click_tolerated in *.
    destruct (wait_clickable d innings_tab_selector) as [[]|e1].
    2:{ by destruct Hclickable as [->|[->| ->]]. }
    destruct (we_click tab) as [[]|e2].
    2:{ by destruct Hclick as [->|[->| ->]]. }
    destruct (wait_presence d active_commentary_container_selector) as [[]|e3].
    2:{ by destruct Hcontainer as [->|[->| ->]]. }
    done. }
  unfold process_inning, mbind, outcome_bind, mret, outcome_ret.
  rewrite Hfind1, !Htext, Hclicked, Hsrc.
  by destruct (Text.truthy shown).
Qed.

Lemma commentary_parsed_despite_click_failure_witness :
  scrape_match_commentary no_fault (blocked_tab_session three_balls)
    "https://www.iplt20.com/match/2024/1"
  = Returns (parse_commentary_from_soup no_fault three_balls
               commentary_event_selector over_selector run_selector
               start_text_selector text_selector).
Proof.
  apply (commentary_parsed_despite_click_failure no_fault
           (blocked_tab_session three_balls) _ three_balls
           [blocked_tab] blocked_tab blocked_tab [] [] "1st Innings").
  - reflexivity.
  - reflexivity.
  - reflexivity.
  - reflexivity.
  - intros n. reflexivity.
  - exact I.
  - simpl. by left.
  - exact I.
  - reflexivity.
Defined.

(** X13. A timeout (or a missing element) while waiting for the tabs or
    the container is taken as a page without tabs: when the container shows
    up at the next wait, the panel is parsed and its entries are returned. *)
Theorem commentary_parsed_after_discovery_timeout
    (fault : node -> option exn) (d : driver) (url : string) (soup : node)
    (e : exn) :
  get d url = Returns tt ->
  wait_presence d tabs_or_container_selector = Raises e ->
  e = TimeoutException \/ e = NoSuchElementException ->
  wait_presence d active_commentary_container_selector = Returns tt ->
  page_source d = Returns soup ->
  scrape_match_commentary fault d url
  = Returns (parse_commentary_from_soup fault soup commentary_event_selector
               over_selector run_selector start_text_selector text_selector).
Proof.
  intros Hget Hwait He Hcontainer Hsrc.
  rewrite (scrape_match_commentary_after_discovery fault d url Hget []).
  2:{ unfold discover_tabs, try_except, mbind, outcome_bind.
      fold tabs_or_container_selector. rewrite Hwait.
      by destruct He as [-> | ->]. }
  unfold process_inning, mbind, outcome_bind, mret, outcome_ret.
  by rewrite Hcontainer, Hsrc.
Qed.

Lemma commentary_parsed_after_discovery_timeout_witness :
  scrape_match_commentary no_fault (slow_panel_session three_balls)
    "https://www.iplt20.com/match/2024/1"
  = Returns (parse_commentary_from_soup no_fault three_balls
               commentary_event_selector over_selector run_selector
               start_text_selector text_selector).
Proof.
  apply (commentary_parsed_after_discovery_timeout no_fault
           (slow_panel_session three_balls) _ three_balls TimeoutException).
  - reflexivity.
  - reflexivity.
  - by left.
  - reflexivity.
  - reflexivity.
Defined.

(** X14. The page source is not read in two cases, and the result is then
    empty whatever commentary the page holds: there are no tabs and the
    wait for the container raises; or the tabs found at first are gone when
    they are looked up again just before the click. *)
Theorem commentary_empty_without_panel
    (fault : node -> option exn) (d : driver) (url : string) :
  get d url = Returns tt ->
  wait_presence d tabs_or_container_selector = Returns tt ->
  (find_elements d innings_tab_selector 0 = Returns []
   /\ exists e, wait_presence d active_commentary_container_selector = Raises e)
  \/ ((exists tab others,
         find_elements d innings_tab_selector 0 = Returns (tab :: others))
      /\ find_elements d innings_tab_selector 1 = Returns []) ->
  scrape_match_commentary fault d url = Returns [].
Proof.
  intros Hget Hwait [[Hfind [e He]] | [(tab & others & Hfind) Hagain]].
  - rewrite (scrape_match_commentary_after_discovery fault d url Hget []).
    2:{ unfold discover_tabs, try_except, mbind, outcome_bind.
        fold tabs_or_container_selector. by rewrite Hwait, Hfind. }
    unfold process_inning, mbind, outcome_bind. by rewrite He.
  - rewrite (scrape_match_commentary_after_discovery fault d url Hget
               (tab :: others)).
    2:{ unfold discover_tabs, try_except, mbind, outcome_bind.
        fold tabs_or_container_selector. by rewrite Hwait, Hfind. }
    unfold process_inning, mbind, outcome_bind, mret, outcome_ret.
    by rewrite Hagain.
Qed.

Lemma commentary_empty_without_panel_witness :
  scrape_match_commentary no_fault (vanishing_tabs_session three_balls)
    "https://www.iplt20.com/match/2024/1" = Returns [].
Proof.
  apply (commentary_empty_without_panel no_fault
           (vanishing_tabs_session three_balls)).
  - reflexivity.
  - reflexivity.
  - right. split; [by exists blocked_tab, []|reflexivity].
Defined.

(* ===================================================================== *)
(** ** The API layer *)
(* ===================================================================== *)

Lemma scrape_live_matches_NoDup (urljoin : string -> string -> outcome string)
    (fuel : nat) (d : driver) (urls : list string) :
  scrape_live_matches urljoin fuel d = Some (Returns urls) -> NoDup urls.
Proof.
  assert (Hnil : NoDup (@nil string)) by constructor.
  assert (Hlive : forall soup, NoDup (live_matches_of_soup urljoin soup)).
  { intros soup. rewrite live_matches_of_soup_loop.
    apply live_loop_NoDup; [constructor|].
    intros u Hu. by apply elem_of_nil in Hu. }
  unfold scrape_live_matches. intros H.
  repeat case_match; simplify_eq; auto.
Qed.

Lemma scrape_past_matches_NoDup (urljoin : string -> string -> outcome string)
    (fuel : nat) (d : driver) (urls : list string) :
  scrape_past_matches urljoin fuel d = Some (Returns urls) -> NoDup urls.
Proof.
  assert (Hnil : NoDup (@nil string)) by constructor.
  unfold scrape_past_matches. intros H.
  repeat case_match; simplify_eq; auto; apply NoDup_elements.
Qed.

(** X15. After a call of [/live_matches] or [/past_matches] that answers,
    the answer is either a list without duplicates, with the gauge of its
    label set to the length of the list and the error counter unchanged, or
    an HTTP error 503 (no browser) or 500, with the error counter of its
    label one higher. *)
Theorem listing_endpoints_count_errors
    (str : exn -> string) (urljoin : string -> string -> outcome string)
    (fuel : nat) (driver : option driver) (m m' : metrics)
    (answer : response (list string)) :
  (get_live_matches str urljoin fuel driver m = Some (answer, m') ->
   match answer with
   | OK matches =>
       NoDup matches
       /\ MATCHES_FOUND m' live = length matches
       /\ SCRAPER_ERRORS m' live = SCRAPER_ERRORS m live
   | HTTPException status_code _ =>
       SCRAPER_ERRORS m' live = S (SCRAPER_ERRORS m live)
       /\ (status_code = 503 /\ driver = None
           \/ status_code = 500 /\ driver <> None /\ MATCHES_FOUND m' live = 0)
   end)
  /\ (get_past_matches str urljoin fuel driver m = Some (answer, m') ->
      match answer with
      | OK matches =>
          NoDup matches
          /\ MATCHES_FOUND m' past = length matches
          /\ SCRAPER_ERRORS m' past = SCRAPER_ERRORS m past
      | HTTPException status_code _ =>
          SCRAPER_ERRORS m' past = S (SCRAPER_ERRORS m past)
          /\ (status_code = 503 /\ driver = None
              \/ status_code = 500 /\ driver <> None /\ MATCHES_FOUND m' past = 0)
      end).
Proof.
  split.
  - unfold get_live_matches. destruct driver as [d|].
    + destruct (scrape_live_matches urljoin fuel d) as [[urls|e]|] eqn:E;
        [| |done]; intros [= <- <-].
      * split; [by eapply scrape_live_matches_NoDup|]. done.
      * split; [done|]. right. done.
    + intros [= <- <-]. split; [done|]. by left.
  - unfold get_past_matches. destruct driver as [d|].
    + destruct (scrape_past_matches urljoin fuel d) as [[urls|e]|] eqn:E;
        [| |done]; intros [= <- <-].
      * split; [by eapply scrape_past_matches_NoDup|]. done.
      * split; [done|]. right. done.
    + intros [= <- <-]. split; [done|]. by left.
Qed.

(** Facts on strings used below. *)
Lemma starts_with_contains (p s : string) :
  Text.starts_with p s = true -> Text.contains p s = true.
Proof. intros H. destruct s; simpl; by rewrite H. Qed.

Lemma contains_starts_with (p s : string) :
  Text.contains p s = false -> Text.starts_with p s = false.
Proof.
  intros H. destruct (Text.starts_with p s) eqn:E; [|done].
  by rewrite (starts_with_contains _ _ E) in H.
Qed.

Lemma contains_slash (s : string) :
  Text.contains "/" s = Text.char_in "/" s.
Proof.
  induction s as [|c s IH]; [done|].
  cbn [Text.contains Text.starts_with Text.char_in]. rewrite IH.
  by destruct (Ascii.eqb "/" c).
Qed.

Lemma char_in_app (c : ascii) (a b : string) :
  Text.char_in c (a +:+ b) = Text.char_in c a || Text.char_in c b.
Proof.
  induction a as [|x a IH]; [done|].
  change (Text.char_in c (String x a +:+ b))
    with (Ascii.eqb c x || Text.char_in c (a +:+ b)).
  rewrite IH. cbn [Text.char_in].
  by destruct (Ascii.eqb c x).
Qed.

Lemma no_dots_before_extension (u : string) :
  Text.char_in "." u = false -> Text.contains ".." (u +:+ ".wav") = false.
Proof.
  induction u as [|c u IH]; [done|].
  change (Text.contains ".." (String c u +:+ ".wav"))
    with (Ascii.eqb "." c && Text.starts_with "." (u +:+ ".wav")
          || Text.contains ".." (u +:+ ".wav")).
  cbn [Text.char_in].
  destruct (Ascii.eqb "." c) eqn:E; [done|]. cbn [andb orb]. intros H.
  by apply IH.
Qed.

(** The file name of a request passes the test of [get_audio] when the
    identifier has neither dot nor slash, as a UUID in text. *)
Lemma audio_filename_accepted (uuid : string) :
  Text.char_in "." uuid = false ->
  Text.char_in "/" uuid = false ->
  Text.contains ".." (audio_filename uuid) = false
  /\ Text.contains "/" (audio_filename uuid) = false.
Proof.
  intros Hdot Hslash. unfold audio_filename. split.
  - simpl. by apply no_dots_before_extension.
  - rewrite contains_slash, !char_in_app, Hslash. reflexivity.
Qed.

Lemma path_join_static (filename : string) :
  Text.contains "/" filename = false ->
  path_join "/app/static" filename = "/app/static/" +:+ filename.
Proof.
  intros H%contains_starts_with. unfold path_join. by rewrite H.
Qed.

(** X16. [get_audio] serves files of [/app/static] only: the path it
    opens is [/app/static/] followed by the name asked for, and that name
    has no slash and no [..]; the file exists. *)
Theorem get_audio_stays_in_static (files : gset string)
    (filename file_path : string) :
  get_audio files filename = OK file_path ->
  file_path = "/app/static/" +:+ filename
  /\ Text.contains "/" filename = false
  /\ Text.contains ".." filename = false
  /\ file_path ∈ files.
Proof.
  unfold get_audio.
  destruct (Text.contains ".." filename) eqn:Edots; [done|].
  destruct (Text.contains "/" filename) eqn:Eslash; [done|]. simpl.
  case_decide as Hin; [|done]. intros [= <-].
  by rewrite path_join_static in *.
Qed.

Lemma get_audio_stays_in_static_witness :
  "/app/static/commentary_1.wav" = "/app/static/" +:+ "commentary_1.wav"
  /\ Text.contains "/" "commentary_1.wav" = false
  /\ Text.contains ".." "commentary_1.wav" = false
  /\ "/app/static/commentary_1.wav"
     ∈ ({[ "/app/static/commentary_1.wav" ]} : gset string).
Proof.
  apply (get_audio_stays_in_static
           {[ "/app/static/commentary_1.wav" ]} "commentary_1.wav").
  vm_compute. reflexivity.
Defined.

(** The metrics after one feedback request. *)
Lemma submit_feedback_metrics (feedback : FeedbackRequest) (m : metrics) :
  FEEDBACK_COUNT (snd (submit_feedback feedback m)) = S (FEEDBACK_COUNT m)
  /\ FEEDBACK_SCORE (snd (submit_feedback feedback m))
     = FEEDBACK_SCORE m ++ [score feedback]
  /\ DRIFT_SCORE (snd (submit_feedback feedback m))
     = DRIFT_SCORE m ++ List.filter (fun s => Z.ltb s 3) [score feedback].
Proof.
  unfold submit_feedback. simpl.
  destruct (Z.ltb (score feedback) 3); simpl; by rewrite ?app_nil_r.
Qed.

(** X17. After any series of feedback requests the counter has gone up by
    the number of requests, the score histogram has received the scores in
    order, and the drift histogram has received exactly the scores below 3,
    in order. *)
Theorem feedback_metrics_after_requests
    (requests : list FeedbackRequest) (m : metrics) :
  FEEDBACK_COUNT (submit_all requests m) = FEEDBACK_COUNT m + length requests
  /\ FEEDBACK_SCORE (submit_all requests m)
     = FEEDBACK_SCORE m ++ List.map score requests
  /\ DRIFT_SCORE (submit_all requests m)
     = DRIFT_SCORE m
       ++ List.filter (fun s => Z.ltb s 3) (List.map score requests).
Proof.
  revert m. induction requests as [|feedback rest IH]; intros m.
  { simpl. by rewrite !app_nil_r, Nat.add_0_r. }
  unfold submit_all in *. cbn [foldl].
  destruct (IH (snd (submit_feedback feedback m))) as (Hc & Hs & Hd).
  destruct (submit_feedback_metrics feedback m) as (Hc1 & Hs1 & Hd1).
  rewrite Hc, Hs, Hd, Hc1, Hs1, Hd1. cbn [List.map length].
  split; [lia|]. split; [by rewrite <- app_assoc|].
  rewrite <- app_assoc. f_equal. cbn [List.filter].
  by destruct (Z.ltb (score feedback) 3).
Qed.

(** The entries [parse_commentary_from_soup] keeps are longer than 5. *)
Lemma parse_commentary_entry_long
    (fault : node -> option exn) (soup : node)
    (event_sel over_sel run_sel start_sel text_sel : selector) (entry : string) :
  entry ∈ parse_commentary_from_soup fault soup event_sel over_sel run_sel
            start_sel text_sel ->
  5 < String.length entry.
Proof.
  rewrite parse_commentary_from_soup_contributions, rev_reverse, elem_of_reverse.
  intros (e & _ & He)%elem_of_contributions.
  apply contribution_entry_of in He as (o & r & st & t & He).
  by apply entry_of_length in He.
Qed.

(** What [scrape_match_commentary] returns is empty or the parse of the
    page source the browser hands over. *)
Lemma process_inning_shape (fault : node -> option exn) (d : driver)
    (tabs : list web_element) (entries : list string) :
  process_inning fault d tabs = Returns (Some entries) ->
  exists soup,
    page_source d = Returns soup
    /\ entries = parse_commentary_from_soup fault soup commentary_event_selector
                   over_selector run_selector start_text_selector text_selector.
Proof.
  unfold process_inning, mbind, outcome_bind, mret, outcome_ret.
  destruct (page_source d) as [soup|e]; intros H.
  - exists soup. split; [done|].
    repeat match type of H with
    | context [match ?x with _ => _ end] => destruct x; try discriminate
    end.
    all: by injection H as <-.
  - exfalso.
    repeat match type of H with
    | context [match ?x with _ => _ end] => destruct x; try discriminate
    end.
Qed.

Lemma scrape_match_commentary_shape (fault : node -> option exn) (d : driver)
    (url : string) (entries : list string) :
  scrape_match_commentary fault d url = Returns entries ->
  entries = []
  \/ exists soup,
       page_source d = Returns soup
       /\ entries = parse_commentary_from_soup fault soup
                      commentary_event_selector over_selector run_selector
                      start_text_selector text_selector.
Proof.
  unfold scrape_match_commentary, try_except.
  unfold mbind at 1, outcome_bind at 1.
  destruct (safe_get d url) as [[]|e]; [| |destruct e]; try (intros [= <-]; by left).
  unfold mbind at 1, outcome_bind at 1.
  destruct (discover_tabs d) as [tabs|e]; [|intros [= <-]; by left].
  unfold mbind, outcome_bind, mret, outcome_ret.
  destruct (process_inning fault d tabs) as [[l|]|e] eqn:E;
    intros [= <-]; [|by left..].
  right. by eapply process_inning_shape.
Qed.

Lemma scrape_match_commentary_entry_long (fault : node -> option exn)
    (d : driver) (url : string) (entries : list string) (entry : string) :
  scrape_match_commentary fault d url = Returns entries ->
  entry ∈ entries -> 5 < String.length entry.
Proof.
  intros [->|(soup & _ & ->)]%scrape_match_commentary_shape Hin.
  - by apply elem_of_nil in Hin.
  - by eapply parse_commentary_entry_long.
Qed.

Lemma or_else_nonempty (a b : string) :
  0 < String.length a -> or_else a b = a.
Proof. destruct a; simpl; [lia|done]. Qed.

Lemma or_else_truthy (a b : string) :
  Text.truthy b = true -> Text.truthy (or_else a b) = true.
Proof. by destruct a. Qed.

(** The placeholders of a failed LLM step do not pass the validity test
    of line 417. *)
Lemma placeholder_invalid (rest : string) :
  valid_processed_commentary ("(LLM processing failed" +:+ rest) = false.
Proof. reflexivity. Qed.

Ltac placeholder_case :=
  intros H; exfalso; revert H;
  match goal with
  | |- valid_processed_commentary ?s = true -> _ =>
      change s with ("(LLM processing failed" +:+ (Text.drop 22 s))
  end;
  rewrite placeholder_invalid; discriminate.

(** A text that passes the validity test is an answer of the model in
    which no refusal pattern occurs. *)
Lemma llm_processing_valid (model : llm_model) (latest : string) :
  valid_processed_commentary (llm_processing model latest) = true ->
  existsb (fun pattern =>
             Text.contains (Text.lower pattern)
                           (Text.lower (llm_processing model latest)))
          refusal_patterns = false.
Proof.
  unfold llm_processing.
  destruct (model _ _) as [[[|[[[[text|]]|]] ?]|]|]; try placeholder_case.
  cbn [message content].
  destruct (Text.truthy text); [|placeholder_case].
  unfold clean_content.
  match goal with
  | |- context [if existsb ?f ?l then _ else ?p] =>
      destruct (existsb f l) eqn:E; [placeholder_case|]
  end.
  intros _. exact E.
Qed.

(** X18. With a browser and a model, [/scrape_commentary] always answers
    with a body, whatever the page, the model and the voice do: the 500
    branch is never taken.  The body is the no-commentary message exactly
    when the scrape is empty; the scrape time has then been observed once
    (line 368), the other metrics and the files are as before.  Otherwise
    the raw commentary is the last entry scraped, at least 6 characters
    long, and the processed commentary is not empty. *)
Theorem generate_always_answers
    (str : exn -> string) (fault : node -> option exn) (uuid : string)
    (d : driver) (model : llm_model) (tts : option tts_model)
    (url : string) (m : metrics) (files : gset string) :
  exists body m' files',
    scrape_and_generate str fault uuid (Some d) (Some model) tts url m files
    = (OK body, m', files')
    /\ match body with
       | NoCommentary commentary =>
           scrape_match_commentary fault d url = Returns []
           /\ commentary = "(No commentary found on page)"
           /\ m' = observe_scrape_time m /\ files' = files
       | Generated raw processed audio_url =>
           exists entries,
             scrape_match_commentary fault d url = Returns entries
             /\ last entries = Some raw
             /\ 6 <= String.length raw
             /\ Text.truthy processed = true
       end.
Proof.
  unfold scrape_and_generate.
  destruct (scrape_match_commentary_returns fault d url) as [entries Hscrape].
  rewrite Hscrape.
  destruct (last entries) as [latest|] eqn:Elast.
  2:{ apply last_None in Elast as ->. by eexists _, _, _. }
  assert (Hlong : 5 < String.length latest).
  { apply (scrape_match_commentary_entry_long fault d url entries); [done|].
    apply last_Some in Elast as [l' ->]. apply elem_of_app. right. by left. }
  rewrite (or_else_nonempty latest) by lia.
  assert (Hproc : forall p, Text.truthy (or_else p "(Processed commentary unavailable)") = true).
  { intros p. by apply or_else_truthy. }
  destruct tts as [voice|].
  - destruct (valid_processed_commentary _).
    + destruct (voice _ _); eexists _, _, _; (split; [reflexivity|]);
        exists entries; repeat split; auto; lia.
    + eexists _, _, _. split; [reflexivity|].
      exists entries. repeat split; auto; lia.
  - eexists _, _, _. split; [reflexivity|].
    exists entries. repeat split; auto; lia.
Qed.

Lemma existsb_false_forall {A : Type} (f : A -> bool) (l : list A) :
  existsb f l = false -> forall x, x ∈ l -> f x = false.
Proof.
  intros H x Hx. destruct (f x) eqn:E; [|done].
  assert (existsb f l = true); [|congruence].
  apply existsb_exists. exists x. split; [by apply list_elem_of_In|done].
Qed.

(** How a generated body with an audio URL comes about. *)
Lemma generate_with_audio
    (str : exn -> string) (fault : node -> option exn) (uuid : string)
    (driver : option driver) (llm : option llm_model) (tts : option tts_model)
    (url : string) (m m' : metrics) (files files' : gset string)
    (raw processed audio_url : string) :
  scrape_and_generate str fault uuid driver llm tts url m files
  = (OK (Generated raw processed (Some audio_url)), m', files') ->
  exists model latest,
    llm = Some model
    /\ tts <> None
    /\ processed = llm_processing model latest
    /\ valid_processed_commentary processed = true
    /\ audio_url = "/audio/" +:+ audio_filename uuid
    /\ files' = {[path_join "/app/static" (audio_filename uuid)]} ∪ files.
Proof.
  unfold scrape_and_generate.
  destruct driver as [d|]; [|done]. destruct llm as [model|]; [|done].
  destruct (scrape_match_commentary fault d url) as [entries|]; [|done].
  destruct (last entries) as [latest|]; [|done].
  destruct tts as [voice|]; [|done].
  destruct (valid_processed_commentary (llm_processing model latest)) eqn:Ev;
    [|done].
  destruct (voice _ _); [|done].
  intros [= _ <- <- <- <-]. exists model, latest.
  assert (Ht : Text.truthy (llm_processing model latest) = true).
  { unfold valid_processed_commentary in Ev. by apply andb_true_iff in Ev as [? _]. }
  assert (Hsame : or_else (llm_processing model latest)
                    "(Processed commentary unavailable)"
                  = llm_processing model latest).
  { unfold or_else. by rewrite Ht. }
  rewrite Hsame. by repeat split.
Qed.

(** X19. An audio file is synthesized only from an accepted answer of the
    model: when the body carries an audio URL, a voice is loaded, and the
    processed commentary is not empty, contains none of the refusal
    patterns (whatever the case) and none of the error markers. *)
Theorem audio_only_for_accepted_text
    (str : exn -> string) (fault : node -> option exn) (uuid : string)
    (driver : option driver) (llm : option llm_model) (tts : option tts_model)
    (url : string) (m m' : metrics) (files files' : gset string)
    (raw processed audio_url : string) :
  scrape_and_generate str fault uuid driver llm tts url m files
  = (OK (Generated raw processed (Some audio_url)), m', files') ->
  tts <> None
  /\ Text.truthy processed = true
  /\ (forall pattern, pattern ∈ refusal_patterns ->
        Text.contains (Text.lower pattern) (Text.lower processed) = false)
  /\ (forall err, err ∈ error_indicators ->
        Text.contains err processed = false).
Proof.
  intros (model & latest & _ & Htts & -> & Hvalid & _)%generate_with_audio.
  split; [done|].
  pose proof (llm_processing_valid _ _ Hvalid) as Hrefusal.
  unfold valid_processed_commentary in Hvalid.
  apply andb_true_iff in Hvalid as [Ht Herr]. apply negb_true_iff in Herr.
  split; [done|]. split.
  - intros pattern Hp.
    by apply (existsb_false_forall _ _ Hrefusal pattern).
  - intros err He. by apply (existsb_false_forall _ _ Herr err).
Qed.

Lemma audio_only_for_accepted_text_witness :
  (Some working_voice : option tts_model) <> None
  /\ Text.truthy "What a strike from Kohli!" = true
  /\ (forall pattern, pattern ∈ refusal_patterns ->
        Text.contains (Text.lower pattern)
                      (Text.lower "What a strike from Kohli!") = false)
  /\ (forall err, err ∈ error_indicators ->
        Text.contains err "What a strike from Kohli!" = false).
Proof.
  apply (audio_only_for_accepted_text class_name no_fault "7f3a"
           (Some (static_session three_balls))
           (Some (answering "assistant:  What a strike from Kohli! "))
           (Some working_voice) "https://www.iplt20.com/match/2024/1"
           fresh_metrics
           (observe_tts_time (observe_llm_time (observe_scrape_time fresh_metrics)))
           ∅ ({["/app/static/commentary_7f3a.wav"]} ∪ ∅)
           "6 (Six) - Bumrah to Kohli - SIX! Over long-on"
           "What a strike from Kohli!"
           "/audio/commentary_7f3a.wav").
  vm_compute. reflexivity.
Defined.

(** X20. The audio URL of a body names a file [get_audio] serves: when
    the identifier of the request has neither dot nor slash (a UUID in text
    has none), the URL is [/audio/] followed by the file name, and
    [get_audio] on that name, with the files as the request left them,
    answers with the file the voice wrote. *)
Theorem generated_audio_is_served
    (str : exn -> string) (fault : node -> option exn) (uuid : string)
    (driver : option driver) (llm : option llm_model) (tts : option tts_model)
    (url : string) (m m' : metrics) (files files' : gset string)
    (raw processed audio_url : string) :
  scrape_and_generate str fault uuid driver llm tts url m files
  = (OK (Generated raw processed (Some audio_url)), m', files') ->
  Text.char_in "." uuid = false ->
  Text.char_in "/" uuid = false ->
  audio_url = "/audio/" +:+ audio_filename uuid
  /\ get_audio files' (audio_filename uuid)
     = OK ("/app/static/" +:+ audio_filename uuid).
Proof.
  intros (model & latest & _ & _ & _ & _ & -> & ->)%generate_with_audio
         Hdot Hslash.
  split; [done|].
  destruct (audio_filename_accepted uuid Hdot Hslash) as [Hdots Hsl].
  unfold get_audio. rewrite Hdots, Hsl. cbn [orb].
  rewrite (path_join_static _ Hsl).
  case_decide as Hin; [done|]. exfalso. apply Hin.
  apply elem_of_union. left. by apply elem_of_singleton.
Qed.

Lemma generated_audio_is_served_witness :
  "/audio/commentary_7f3a.wav" = "/audio/" +:+ audio_filename "7f3a"
  /\ get_audio ({["/app/static/commentary_7f3a.wav"]} ∪ ∅)
       (audio_filename "7f3a")
     = OK ("/app/static/" +:+ audio_filename "7f3a").
Proof.
  apply (generated_audio_is_served class_name no_fault "7f3a"
           (Some (static_session three_balls))
           (Some (answering "assistant:  What a strike from Kohli! "))
           (Some working_voice) "https://www.iplt20.com/match/2024/1"
           fresh_metrics
           (observe_tts_time (observe_llm_time (observe_scrape_time fresh_metrics)))
           ∅ ({["/app/static/commentary_7f3a.wav"]} ∪ ∅)
           "6 (Six) - Bumrah to Kohli - SIX! Over long-on"
           "What a strike from Kohli!").
  - vm_compute. reflexivity.
  - reflexivity.
  - reflexivity.
Defined.

(** X21. The ball [/scrape_commentary] works on is the newest one: when
    the scrape returns the parse of a panel, the raw commentary of the body
    is the entry of the first kept event element of the panel, and it is
    the text the model is asked to rewrite. *)
Theorem generate_uses_newest_ball
    (str : exn -> string) (fault : node -> option exn) (uuid : string)
    (d : driver) (model : llm_model) (tts : option tts_model)
    (url : string) (m : metrics) (files : gset string) (soup : node)
    (newest : string) (older : list string) :
  scrape_match_commentary fault d url
  = Returns (parse_commentary_from_soup fault soup commentary_event_selector
               over_selector run_selector start_text_selector text_selector) ->
  contributions fault over_selector run_selector start_text_selector
    text_selector (select soup commentary_event_selector)
  = newest :: older ->
  exists audio_url m' files',
    scrape_and_generate str fault uuid (Some d) (Some model) tts url m files
    = (OK (Generated newest
             (or_else (llm_processing model newest)
                      "(Processed commentary unavailable)")
             audio_url),
       m', files').
Proof.
  intros Hscrape Hkept. unfold scrape_and_generate. rewrite Hscrape.
  rewrite parse_commentary_from_soup_contributions, Hkept, rev_reverse.
  rewrite last_reverse. cbn [head].
  assert (Hlong : 5 < String.length newest).
  { apply (parse_commentary_entry_long fault soup commentary_event_selector
             over_selector run_selector start_text_selector text_selector).
    rewrite parse_commentary_from_soup_contributions, Hkept, rev_reverse.
    apply elem_of_reverse. by left. }
  rewrite (or_else_nonempty newest) by lia.
  destruct tts as [voice|]; [|by eexists _, _, _].
  destruct (valid_processed_commentary _); [|by eexists _, _, _].
  destruct (voice _ _); by eexists _, _, _.
Qed.

Lemma generate_uses_newest_ball_witness :
  exists audio_url m' files',
    scrape_and_generate class_name no_fault "7f3a"
      (Some (static_session three_balls))
      (Some (answering "assistant:  What a strike from Kohli! "))
      (Some working_voice) "https://www.iplt20.com/match/2024/1"
      fresh_metrics ∅
    = (OK (Generated "6 (Six) - Bumrah to Kohli - SIX! Over long-on"
             (or_else (llm_processing
                         (answering "assistant:  What a strike from Kohli! ")
                         "6 (Six) - Bumrah to Kohli - SIX! Over long-on")
                      "(Processed commentary unavailable)")
             audio_url),
       m', files').
Proof.
  apply (generate_uses_newest_ball class_name no_fault "7f3a"
           (static_session three_balls) _ _ _ _ _ three_balls _
           ["5.6 (0) - Bumrah to Kohli - dot ball";
            "5.5 - Bumrah to Kohli - single"]).
  - vm_compute. reflexivity.
  - vm_compute. reflexivity.
Defined.

(** X10. [scrape_match_commentary] raises nothing, whatever the browser
    and the page do: it returns a list, which is empty or the parse of the
    page source the browser hands over, read once, for the first inning. *)
Theorem scrape_match_commentary_never_raises
    (fault : node -> option exn) (d : driver) (url : string) :
  exists entries,
    scrape_match_commentary fault d url = Returns entries
    /\ (entries = []
        \/ exists soup,
             page_source d = Returns soup
             /\ entries = parse_commentary_from_soup fault soup
                            commentary_event_selector over_selector
                            run_selector start_text_selector text_selector).
Proof.
  destruct (scrape_match_commentary_returns fault d url) as [entries H].
  exists entries. split; [done|]. by eapply scrape_match_commentary_shape.
Qed.
